(** * The coordinate-transformation and annotation-synchronisation core
      of the whole-slide-image annotation viewer

    Shallow embedding of
      - js/modules/coordinate-transforms.js
      - js/modules/sam-api.js
      - js/modules/annotation-manager.js
      - js/core/viewer-core.js
    and the properties of the specification that concern them.

    Number model.  JavaScript numbers are modelled by exact rationals
    ([Q]): every finite double is a rational, and rounding error and
    overflow are abstracted.  [Math.floor] and [Math.round] land in [Z]
    and are injected back.  The value [NaN] is represented explicitly
    ([JsNum]) in the one place where the code produces it from finite,
    well-typed input; [Infinity] is represented explicitly for the
    candidate areas ([Area]).

    External collaborators (the OpenSeadragon viewer, the Annotorious
    store, the DOM parser, the remote service, the clock) are records
    and section variables: their answers are inputs of the model. *)

From Stdlib Require Import QArith Qround Qabs Qminmax ZArith List String Ascii
  DecimalString Bool Lia Lqa.
From stdpp Require Import gmap strings.
Import ListNotations.

(* ===================================================================== *)
(** * JavaScript primitives                                               *)
(* ===================================================================== *)

Module Js.

(** [Math.floor], [Math.round] (round half up), [Math.max], [Math.min],
    [Math.abs] on finite numbers. *)
Definition Math_floor (q : Q) : Q := inject_Z (Qfloor q).
Definition Math_round (q : Q) : Q := inject_Z (Qfloor (q + (1 # 2))).
Definition Math_max (a b : Q) : Q := Qmax a b.
Definition Math_min (a b : Q) : Q := Qmin a b.
Definition Math_abs (q : Q) : Q := Qabs q.

(** Truthiness of a (finite) number: only zero is falsy. *)
Definition truthy (q : Q) : bool := negb (Qeq_bool q 0).

(** A number that may be [NaN]. *)
Inductive JsNum : Type :=
| Fin (q : Q)
| NaN.

(** The outcome of a call: a returned value or a thrown exception
    (for an [async] function: a fulfilled or a rejected promise). *)
Inductive Completion (A : Type) : Type :=
| Normal (a : A)
| Throw (message : string).
Arguments Normal {A} a.
Arguments Throw {A} message.

(** ** Strings *)

(** [s.startsWith(p)] *)
Definition startsWith (s p : string) : bool := String.prefix p s.

(** [s.includes(p)] *)
Fixpoint includes (s p : string) : bool :=
  String.prefix p s ||
  match s with
  | EmptyString => false
  | String _ s' => includes s' p
  end.

(** [s.toLowerCase()] on the ASCII letters. *)
Definition lowerAscii (c : ascii) : ascii :=
  let n := nat_of_ascii c in
  if (65 <=? n)%nat && (n <=? 90)%nat then ascii_of_nat (n + 32) else c.

Fixpoint toLowerCase (s : string) : string :=
  match s with
  | EmptyString => EmptyString
  | String c s' => String (lowerAscii c) (toLowerCase s')
  end.

(** [s.trim()] for the ASCII white space (tab, line feed, vertical tab,
    form feed, carriage return, space). *)
Definition isWhiteSpace (c : ascii) : bool :=
  let n := nat_of_ascii c in
  ((9 <=? n)%nat && (n <=? 13)%nat) || (n =? 32)%nat.

Fixpoint trimStart (s : string) : string :=
  match s with
  | EmptyString => EmptyString
  | String c s' => if isWhiteSpace c then trimStart s' else s
  end.

Fixpoint trimEnd (s : string) : string :=
  match s with
  | EmptyString => EmptyString
  | String c s' =>
      match trimEnd s' with
      | EmptyString => if isWhiteSpace c then EmptyString else String c EmptyString
      | t => String c t
      end
  end.

Definition trim (s : string) : string := trimEnd (trimStart s).

(** Truthiness of a string: only the empty string is falsy. *)
Definition truthyString (s : string) : bool :=
  match s with
  | EmptyString => false
  | _ => true
  end.

End Js.
Import Js.

(* ===================================================================== *)
(** * Data model                                                          *)
(* ===================================================================== *)

(** The object returned by [getCurrentViewportBounds] and read by the
    transforms: [{x, y, width, height, downsample}].  A property that
    may be [undefined] is an [option]. *)
Record ViewportBounds : Type := mkViewportBounds {
  vb_x : Q;
  vb_y : Q;
  vb_width : Q;
  vb_height : Q;
  vb_downsample : option Q
}.

(** The object returned by [getCurrentImageData]. *)
Record ImageInfo : Type := mkImageInfo {
  imageData : string;
  ii_width : Q;
  ii_height : Q;
  ii_scale : Q;
  viewportBounds : option ViewportBounds;
  containerSize : Q * Q
}.

(** What the code reads from the OpenSeadragon viewer. *)
Record Viewer : Type := mkViewer {
  (** [viewer.viewport.getBounds()]: x, y, width, height (normalized) *)
  getBounds : Q * Q * Q * Q;
  (** [viewer.viewport.viewportToImageCoordinates(point)] *)
  viewportToImageCoordinates : Q * Q -> Q * Q;
  (** [viewer.viewport.getZoom(current)] *)
  getZoom : bool -> Q;
  (** [viewer.viewport.getContainerSize()] *)
  getContainerSize : Q * Q;
  (** the base64 JPEG read from the viewer's canvas element; [None] when
      the canvas element is missing or cannot be read *)
  canvasDataURL : option string
}.

(** The coordinate object [{type, x, y, width, height}] extracted from an
    annotation and passed to the forward transform. *)
Record Coords : Type := mkCoords {
  c_type : option string;
  c_x : Q;
  c_y : Q;
  c_width : option Q;
  c_height : option Q
}.

(** A position [[x, y]] of a GeoJSON geometry. *)
Definition Position : Type := (Q * Q)%type.

(** The array handed to the reverse transform, by nesting depth. *)
Inductive CanvasCoordinates : Type :=
| CoordFlat (coord : list Q)                     (* [x, y] *)
| CoordRing (ring : list Position)               (* [[x, y], ...] *)
| CoordRings (rings : list (list Position)).     (* [[[x, y], ...], ...] *)

(** The array it returns: a list of points for a flat input, a list of
    rings otherwise. *)
Inductive WsiCoordinates : Type :=
| WsiPoints (points : list (JsNum * JsNum))
| WsiRings (rings : list (list (JsNum * JsNum))).

(** ** Annotations (W3C web annotation objects, as Annotorious hands them
    over) *)

(** One item of [annotation.body]. *)
Record BodyItem : Type := mkBodyItem {
  b_type : option string;
  b_purpose : option string;
  b_value : option string
}.

(** [{type, value}] of a selector. *)
Record Selector : Type := mkSelector {
  s_type : string;
  s_value : string
}.

(** [annotation.target]. *)
Record Target : Type := mkTarget {
  t_source : option string;
  t_selector : option Selector
}.

Record Annotation : Type := mkAnnotation {
  a_id : string;
  a_target : option Target;
  (** the [selector] property of a selection object *)
  a_selector : option Selector;
  a_body : option (list BodyItem);
  (** [annotation.samGenerated === true] *)
  a_samGenerated : bool;
  a_samTool : option string
}.

(** ** The response of the segmentation service *)

Record Geometry : Type := mkGeometry {
  g_type : string;
  g_coordinates : option (list (list Position))
}.

Record Properties : Type := mkProperties {
  quality : option Q;
  sam_model : option string;
  object_idx : option Q
}.

(** A mask of the array format, a feature of the [{features: [...]}]
    format. *)
Record Feature : Type := mkFeature {
  f_geometry : option Geometry;
  f_properties : option Properties
}.

(** The parsed JSON body: a falsy value, an array of masks, an object
    (with or without a [features] array). *)
Inductive SamResult : Type :=
| SamFalsy
| SamArray (masks : list Feature)
| SamObject (features : option (list Feature)).

(** [calculatedArea]: a number or [Infinity]. *)
Inductive Area : Type :=
| Finite (q : Q)
| Infinity.

(** What the DOM gives for the first shapes of a parsed SVG selector
    (the [circle], [rect] and [polygon] elements with their numeric
    attributes). *)
Inductive SvgShape : Type :=
| SvgCircle (cx cy : Q)
| SvgRect (x y width height : Q)
| SvgPolygon.

(** The platform functions the code relies on. *)
Record Platform : Type := mkPlatform {
  (** [new DOMParser().parseFromString(value, 'image/svg+xml')
        .querySelectorAll('circle, rect, polygon')] *)
  svgShapes : string -> list SvgShape;
  (** the match of [/xywh=pixel:([\d.]+),([\d.]+),([\d.]+),([\d.]+)/]
      with its four groups through [parseFloat] *)
  matchXywhPixel : string -> option (Q * Q * Q * Q);
  (** the text of a number in a template literal *)
  numberToString : JsNum -> string
}.

(* ===================================================================== *)
(** * js/modules/coordinate-transforms.js                                 *)
(* ===================================================================== *)

Module CoordinateTransforms.

Local Open Scope Q_scope.

(** The range test that decides whether [coords] is taken as
    OpenSeadragon normalized viewport coordinates. *)
Definition isNormalizedViewportCoordinate (coords : Coords) : bool :=
  Qle_bool 0 (c_x coords) && Qle_bool (c_x coords) 1 &&
  Qle_bool 0 (c_y coords) && Qle_bool (c_y coords) 1.

(** [transformCoordinatesToCanvasQuPathStyle(coords, imageInfo)].
    The globals [viewer] and [window.currentImageInfo] are explicit
    arguments. *)
Definition transformCoordinatesToCanvasQuPathStyle
    (viewer : option Viewer) (window_currentImageInfo : option ImageInfo)
    (coords : Coords) (imageInfo : option ImageInfo) : Coords :=
  match viewer, imageInfo with
  | Some v, Some info =>
      let currentImageInfo := default info window_currentImageInfo in
      (* Step 1: detect coordinate type *)
      let imagePixelCoords :=
        if isNormalizedViewportCoordinate coords
        then viewportToImageCoordinates v (c_x coords, c_y coords)
        else (c_x coords, c_y coords) in
      (* Step 2: canvas transformation *)
      match viewportBounds currentImageInfo with
      | Some vb =>
          match vb_downsample vb with
          | Some downsample =>
              if truthy downsample then
                let xOffset := vb_x vb in
                let yOffset := vb_y vb in
                let tx := Math_floor ((fst imagePixelCoords - xOffset) / downsample) in
                let ty := Math_floor ((snd imagePixelCoords - yOffset) / downsample) in
                let tw := (fun w => Math_floor (w / downsample)) <$> c_width coords in
                let th := (fun h => Math_floor (h / downsample)) <$> c_height coords in
                (* Ensure within canvas bounds *)
                let tx' := Math_max 0 (Math_min (ii_width info - 1) tx) in
                let ty' := Math_max 0 (Math_min (ii_height info - 1) ty) in
                let tw' := (fun w => Math_max 1 (Math_min (ii_width info - tx') w)) <$> tw in
                let th' := (fun h => Math_max 1 (Math_min (ii_height info - ty') h)) <$> th in
                {| c_type := None; c_x := tx'; c_y := ty';
                   c_width := tw'; c_height := th' |}
              else coords
          | None => coords
          end
      | None => coords
      end
  | _, _ => coords
  end.

(** Legacy wrapper. *)
Definition transformWSIToCanvasCoordinates := transformCoordinatesToCanvasQuPathStyle.

(** The inner [transformCoordinate(coord)] for a position [[x, y]]. *)
Definition transformCoordinate (downsample xOffset yOffset : Q)
    (coord : Position) : JsNum * JsNum :=
  let '(canvasX, canvasY) := coord in
  (Fin (canvasX * downsample + xOffset), Fin (canvasY * downsample + yOffset)).

(** [transformCoordinate] on a flat array of numbers: an array with
    fewer than two entries gives [[0, 0]]. *)
Definition transformCoordinateFlat (downsample xOffset yOffset : Q)
    (coord : list Q) : JsNum * JsNum :=
  match coord with
  | canvasX :: canvasY :: _ =>
      (Fin (canvasX * downsample + xOffset), Fin (canvasY * downsample + yOffset))
  | _ => (Fin 0, Fin 0)
  end.

(** [transformCoordinate] when it is handed a whole ring (the
    double-nested branch taken for a list of rings whose first ring is
    empty): a ring of fewer than two positions gives [[0, 0]]; otherwise
    its first two positions, which are arrays, are multiplied as
    numbers, which gives [NaN]. *)
Definition transformCoordinateOfRing (ring : list Position) : JsNum * JsNum :=
  match ring with
  | _ :: _ :: _ => (NaN, NaN)
  | _ => (Fin 0, Fin 0)
  end.

(** [transformCanvasCoordinatesToWSIQuPathStyle(canvasCoordinates, imageInfo)].
    [canvasCoordinates = None] stands for a value that is not an array. *)
Definition transformCanvasCoordinatesToWSIQuPathStyle
    (viewer : option Viewer) (window_currentImageInfo : option ImageInfo)
    (canvasCoordinates : option CanvasCoordinates) (imageInfo : option ImageInfo)
    : Completion (option WsiCoordinates) :=
  match canvasCoordinates with
  | None => Normal None
  | Some cc =>
      match viewer with
      | None => Throw "TypeError: viewer is undefined"
      | Some _ =>
          match (match window_currentImageInfo with
                 | Some w => Some w
                 | None => imageInfo
                 end) with
          | None => Throw "TypeError: currentImageInfo is undefined"
          | Some currentImageInfo =>
              match viewportBounds currentImageInfo with
              | None => Normal None
              | Some vb =>
                  match vb_downsample vb with
                  | None => Normal None
                  | Some downsample =>
                      if truthy downsample then
                        let xOffset := vb_x vb in
                        let yOffset := vb_y vb in
                        let tc := transformCoordinate downsample xOffset yOffset in
                        let tcFlat := transformCoordinateFlat downsample xOffset yOffset in
                        Normal (Some
                          match cc with
                          | CoordRings (((_ :: _) :: _) as rings) =>
                              (* triple nested *)
                              WsiRings (map (fun ring => map tc ring) rings)
                          | CoordRings (([] :: _) as rings) =>
                              (* first ring is an array, its first entry
                                 is not: double nested *)
                              WsiRings [map transformCoordinateOfRing rings]
                          | CoordRing ((_ :: _) as ring) =>
                              (* double nested *)
                              WsiRings [map tc ring]
                          | CoordFlat coord =>
                              (* single level *)
                              WsiPoints [tcFlat coord]
                          | CoordRing [] | CoordRings [] =>
                              (* the empty array: single level *)
                              WsiPoints [(Fin 0, Fin 0)]
                          end)
                      else Normal None
                  end
              end
          end
      end
  end.

(** Legacy wrapper. *)
Definition transformCanvasToWSICoordinates := transformCanvasCoordinatesToWSIQuPathStyle.

(** [getCurrentViewportBounds()].  The downsample factor is computed
    from the zoom but the returned object has the four properties
    [x], [y], [width], [height] only. *)
Definition getCurrentViewportBounds (viewer : option Viewer) : option ViewportBounds :=
  match viewer with
  | None => None
  | Some v =>
      let '(bx, by_, bwidth, bheight) := getBounds v in
      let topLeftImage := viewportToImageCoordinates v (bx, by_) in
      let bottomRightImage :=
        viewportToImageCoordinates v (bx + bwidth, by_ + bheight) in
      let currentZoom := getZoom v true in
      let downsample := 1 / currentZoom in
      Some {| vb_x := Math_round (fst topLeftImage);
              vb_y := Math_round (snd topLeftImage);
              vb_width := Math_round (fst bottomRightImage - fst topLeftImage);
              vb_height := Math_round (snd bottomRightImage - snd topLeftImage);
              vb_downsample := None |}
  end.

(** Step 5 of [debugCoordinatePipeline]: the forward result is fed back
    through the reverse transform as [[[[x, y]]]]. *)
Definition debugRoundTrip (viewer : option Viewer)
    (window_currentImageInfo : option ImageInfo)
    (point : Coords) (imageInfo : option ImageInfo)
    : Completion (option WsiCoordinates) :=
  let canvasCoords :=
    transformCoordinatesToCanvasQuPathStyle viewer window_currentImageInfo
      point imageInfo in
  transformCanvasCoordinatesToWSIQuPathStyle viewer window_currentImageInfo
    (Some (CoordRings [[(c_x canvasCoords, c_y canvasCoords)]])) imageInfo.

End CoordinateTransforms.

(* ===================================================================== *)
(** * js/modules/annotation-manager.js                                    *)
(* ===================================================================== *)

Module AnnotationManager.

Local Open Scope string_scope.

(** The selector an annotation (or a selection object) carries. *)
Definition selectorOf (annotation : Annotation) : option Selector :=
  match a_target annotation with
  | Some target =>
      match t_selector target with
      | Some selector => Some selector
      | None => a_selector annotation
      end
  | None => a_selector annotation
  end.

(** [extractCoordinatesFromAnnotation(annotation)] of this module: the
    attributes of the first shape are taken as they are. *)
Definition extractCoordinatesFromAnnotation (P : Platform)
    (annotation : Annotation) : option Coords :=
  match selectorOf annotation with
  | None => None
  | Some selector =>
      if String.eqb (s_type selector) "SvgSelector" then
        match svgShapes P (s_value selector) with
        | SvgCircle cx cy :: _ =>
            Some {| c_type := Some "point"; c_x := cx; c_y := cy;
                    c_width := None; c_height := None |}
        | SvgRect x y width height :: _ =>
            Some {| c_type := Some "box"; c_x := x; c_y := y;
                    c_width := Some width; c_height := Some height |}
        | _ => None
        end
      else if String.eqb (s_type selector) "FragmentSelector" then
        match matchXywhPixel P (s_value selector) with
        | Some (x, y, width, height) =>
            Some {| c_type := if Qeq_bool width 0 && Qeq_bool height 0
                              then Some "point" else Some "box";
                    c_x := x; c_y := y;
                    c_width := Some width; c_height := Some height |}
        | None => None
        end
      else None
  end.

Definition dquote : string := String "034"%char EmptyString.

(** [`${coord[0]},${coord[1]}`] *)
Definition showCoord (P : Platform) (coord : JsNum * JsNum) : string :=
  numberToString P (fst coord) ++ "," ++ numberToString P (snd coord).

(** [createSVGPathFromWSICoordinates(coordinateRings)] of this module:
    an SVG path through the first ring.  For a list of points the
    first entry is a point, whose two numbers have no entries. *)
Definition createSVGPathFromWSICoordinates (P : Platform)
    (coordinateRings : WsiCoordinates) : string :=
  match coordinateRings with
  | WsiRings ((firstCoord :: rest) :: _) =>
      let pathData :=
        fold_left (fun pathData coord => pathData ++ " L " ++ showCoord P coord)
          rest ("M " ++ showCoord P firstCoord) in
      "<svg><path d=" ++ dquote ++ (pathData ++ " Z") ++ dquote ++ "></path></svg>"
  | WsiPoints (_ :: _) =>
      "<svg><path d=" ++ dquote
        ++ "M undefined,undefined L undefined,undefined Z"
        ++ dquote ++ "></path></svg>"
  | _ => EmptyString
  end.

(** [item.value && typeof item.value === 'string' && item.value.trim()] *)
Definition hasText (item : BodyItem) : bool :=
  match b_value item with
  | Some value => truthyString value && truthyString (trim value)
  | None => false
  end.

Definition purposeIs (item : BodyItem) (purpose : string) : bool :=
  match b_purpose item with
  | Some p => String.eqb p purpose
  | None => false
  end.

(** The loop of [getAnnotationTags] over the body: the trimmed values
    of the items whose purpose is [tagging]. *)
Fixpoint taggingValues (body : list BodyItem) : list string :=
  match body with
  | [] => []
  | item :: rest =>
      if hasText item && purposeIs item "tagging"
      then trim (default EmptyString (b_value item)) :: taggingValues rest
      else taggingValues rest
  end.

(** [isAnnotationFromSAMEnhanced(annotation)]; the global
    [currentTool] is an argument. *)
Definition isAnnotationFromSAMEnhanced (currentTool : string)
    (annotation : Annotation) : bool :=
  (* Method 1: annotation ID prefix *)
  if truthyString (a_id annotation) && startsWith (a_id annotation) "sam-" then true
  (* Method 2: samGenerated property *)
  else if a_samGenerated annotation then true
  (* Method 3: samTool property *)
  else if match a_samTool annotation with
          | Some tool => truthyString tool && startsWith tool "sam-"
          | None => false
          end then true
  (* Method 4: current tool *)
  else if truthyString currentTool && startsWith currentTool "sam-" then true
  (* Method 5: body content *)
  else if match a_body annotation with
          | Some body =>
              existsb (fun item =>
                match b_value item with
                | Some value =>
                    truthyString value &&
                    (includes (toLowerCase value) "sam" ||
                     includes (toLowerCase value) "segment anything")
                | None => false
                end) body
          | None => false
          end then true
  else false.

(** [getAnnotationTags(annotation)].  The detection above catches its
    own exceptions, so the ['Others'] fallback is never taken. *)
Definition getAnnotationTags (currentTool : string)
    (annotation : Annotation) : list string :=
  let tags :=
    match a_body annotation with
    | Some ((_ :: _) as body) => taggingValues body
    | _ => []
    end in
  match tags with
  | _ :: _ => tags
  | [] =>
      let defaultTag :=
        if isAnnotationFromSAMEnhanced currentTool annotation
        then "SAM" else "Manual" in
      [defaultTag]
  end.

(** [isAnnotationFromSAM(annotation)] *)
Definition isAnnotationFromSAM (annotation : Annotation) : bool :=
  truthyString (a_id annotation) && startsWith (a_id annotation) "sam-".

(** The body of the [tags.forEach] of [addAnnotationToList]:
    [annotations[tag].push(annotation)], creating the array first. *)
Definition pushAnnotation (annotation : Annotation)
    (annotations : gmap string (list Annotation)) (tag : string)
    : gmap string (list Annotation) :=
  <[tag := (default [] (annotations !! tag) ++ [annotation])%list]> annotations.

(** [addAnnotationToList(annotation)] on the tag storage. *)
Definition addAnnotationToList (currentTool : string) (annotation : Annotation)
    (annotations : gmap string (list Annotation))
    : gmap string (list Annotation) :=
  fold_left (pushAnnotation annotation)
    (getAnnotationTags currentTool annotation) annotations.

(** [addAnnotation(annotation)] *)
Definition addAnnotation := addAnnotationToList.

Definition keepOthers (id : string) (l : list Annotation) : list Annotation :=
  List.filter (fun ann => negb (String.eqb (a_id ann) id)) l.

(** [removeAnnotationFromList(annotation)] on the tag storage. *)
Definition removeAnnotationFromList (currentTool : string) (annotation : Annotation)
    (annotations : gmap string (list Annotation))
    : gmap string (list Annotation) :=
  fold_left (fun annotations tag =>
               match annotations !! tag with
               | Some l => <[tag := keepOthers (a_id annotation) l]> annotations
               | None => annotations
               end)
    (getAnnotationTags currentTool annotation) annotations.

End AnnotationManager.

(** ** The page: its global variables and its two annotation stores *)

Record Page : Type := mkPage {
  viewer : option Viewer;
  currentTool : string;
  samConnected : bool;
  samLiveMode : bool;
  (** the objects [getCurrentImageData] has returned, by reference *)
  imageInfos : list ImageInfo;
  (** [window.currentImageInfo]: a reference to one of them *)
  window_currentImageInfo : option nat;
  (** the annotations held by Annotorious ([anno]) *)
  anno : list Annotation;
  (** the tag storage [annotations] of annotation-manager.js *)
  annotations : gmap string (list Annotation)
}.

Definition setViewer (v : option Viewer) (pg : Page) : Page :=
  {| viewer := v; currentTool := currentTool pg;
     samConnected := samConnected pg; samLiveMode := samLiveMode pg;
     imageInfos := imageInfos pg;
     window_currentImageInfo := window_currentImageInfo pg;
     anno := anno pg; annotations := annotations pg |}.

Definition setCurrentTool (tool : string) (pg : Page) : Page :=
  {| viewer := viewer pg; currentTool := tool;
     samConnected := samConnected pg; samLiveMode := samLiveMode pg;
     imageInfos := imageInfos pg;
     window_currentImageInfo := window_currentImageInfo pg;
     anno := anno pg; annotations := annotations pg |}.

Definition setImageInfos (infos : list ImageInfo) (pg : Page) : Page :=
  {| viewer := viewer pg; currentTool := currentTool pg;
     samConnected := samConnected pg; samLiveMode := samLiveMode pg;
     imageInfos := infos;
     window_currentImageInfo := window_currentImageInfo pg;
     anno := anno pg; annotations := annotations pg |}.

Definition setWindowCurrentImageInfo (ref : option nat) (pg : Page) : Page :=
  {| viewer := viewer pg; currentTool := currentTool pg;
     samConnected := samConnected pg; samLiveMode := samLiveMode pg;
     imageInfos := imageInfos pg;
     window_currentImageInfo := ref;
     anno := anno pg; annotations := annotations pg |}.

Definition setAnno (l : list Annotation) (pg : Page) : Page :=
  {| viewer := viewer pg; currentTool := currentTool pg;
     samConnected := samConnected pg; samLiveMode := samLiveMode pg;
     imageInfos := imageInfos pg;
     window_currentImageInfo := window_currentImageInfo pg;
     anno := l; annotations := annotations pg |}.

Definition setAnnotations (m : gmap string (list Annotation)) (pg : Page) : Page :=
  {| viewer := viewer pg; currentTool := currentTool pg;
     samConnected := samConnected pg; samLiveMode := samLiveMode pg;
     imageInfos := imageInfos pg;
     window_currentImageInfo := window_currentImageInfo pg;
     anno := anno pg; annotations := m |}.

(** The object [window.currentImageInfo] refers to. *)
Definition currentImageInfoOf (pg : Page) : option ImageInfo :=
  match window_currentImageInfo pg with
  | Some ref => imageInfos pg !! ref
  | None => None
  end.

(** [imageInfo.viewportBounds = bounds] on the object behind a
    reference. *)
Definition setViewportBounds (bounds : option ViewportBounds)
    (imageInfo : ImageInfo) : ImageInfo :=
  {| imageData := imageData imageInfo;
     ii_width := ii_width imageInfo;
     ii_height := ii_height imageInfo;
     ii_scale := ii_scale imageInfo;
     viewportBounds := bounds;
     containerSize := containerSize imageInfo |}.

(* ===================================================================== *)
(** * js/modules/sam-api.js                                               *)
(* ===================================================================== *)

(** The functions that two scripts of the page both declare under one
    global name.  Which declaration a call reaches is decided by the
    order of the script elements of the page; the callers below take the
    binding as an argument. *)
Record Globals : Type := mkGlobals {
  g_extractCoordinatesFromAnnotation :
    option Viewer -> Annotation -> option Coords;
  g_transformWSIToCanvasCoordinates :
    option Viewer -> option ImageInfo -> Coords -> ImageInfo ->
    Completion (option Coords);
  g_transformCanvasToWSICoordinates :
    option Viewer -> option ImageInfo -> list (list Position) -> ImageInfo ->
    Completion (option WsiCoordinates);
  g_createSVGPathFromWSICoordinates : WsiCoordinates -> string
}.

(** The JSON body of the request. *)
Record SamPayload : Type := mkSamPayload {
  p_type : string;
  p_b64img : string;
  p_multimask_output : bool;
  p_point_coords : option (list (Q * Q));
  p_point_labels : option (list Z);
  p_bbox : option (JsNum * JsNum * JsNum * JsNum)
}.

(** What [fetch] and [response.json()] give back: a rejected promise, or
    a response with its [ok] flag and its body ([None]: not JSON). *)
Inductive FetchOutcome : Type :=
| FetchRejected
| FetchResponse (ok : bool) (body : option SamResult).

Module SamApi.

Local Open Scope Q_scope.

(** [getCurrentImageData()]: [null] without a viewer, and when the
    canvas cannot be captured. *)
Definition getCurrentImageData (viewer : option Viewer) : option ImageInfo :=
  match viewer with
  | None => None
  | Some v =>
      let currentViewportBounds :=
        CoordinateTransforms.getCurrentViewportBounds viewer in
      let containerSize := getContainerSize v in
      let targetWidth := Math_round (fst containerSize) in
      let targetHeight := Math_round (snd containerSize) in
      match canvasDataURL v with
      | Some base64Data =>
          Some {| imageData := base64Data;
                  ii_width := targetWidth;
                  ii_height := targetHeight;
                  ii_scale := 1;
                  viewportBounds := currentViewportBounds;
                  containerSize := containerSize |}
      | None => None
      end
  end.

(** [calculatePolygonArea(coordinates)]: the shoelace loop. *)
Definition calculatePolygonArea (coordinates : list Position) : Q :=
  let n := length coordinates in
  if (n <? 3)%nat then 0
  else
    let area :=
      fold_left (fun area i =>
                   let j := ((i + 1) mod n)%nat in
                   let ci := nth i coordinates (0, 0) in
                   let cj := nth j coordinates (0, 0) in
                   area + fst ci * snd cj - fst cj * snd ci)
        (seq 0 n) 0 in
    Math_abs area / 2.

(** [convertNormalizedToWSICoordinates(normalizedX, normalizedY)] *)
Definition convertNormalizedToWSICoordinates (viewer : option Viewer)
    (normalizedX normalizedY : Q) : Q * Q :=
  match viewer with
  | None => (normalizedX, normalizedY)
  | Some v =>
      let imagePoint := viewportToImageCoordinates v (normalizedX, normalizedY) in
      (Math_round (fst imagePoint), Math_round (snd imagePoint))
  end.

(** [extractCoordinatesFromAnnotation(annotation)] of this module: the
    attributes of the first shape go through the viewer's conversion. *)
Definition extractCoordinatesFromAnnotation (P : Platform)
    (viewer : option Viewer) (annotation : Annotation) : option Coords :=
  match AnnotationManager.selectorOf annotation with
  | None => None
  | Some selector =>
      if String.eqb (s_type selector) "SvgSelector" then
        match svgShapes P (s_value selector) with
        | SvgCircle normalizedX normalizedY :: _ =>
            let wsiCoords :=
              convertNormalizedToWSICoordinates viewer normalizedX normalizedY in
            Some {| c_type := Some "point"%string;
                    c_x := fst wsiCoords; c_y := snd wsiCoords;
                    c_width := None; c_height := None |}
        | SvgRect normalizedX normalizedY normalizedWidth normalizedHeight :: _ =>
            let topLeftWSI :=
              convertNormalizedToWSICoordinates viewer normalizedX normalizedY in
            let bottomRightWSI :=
              convertNormalizedToWSICoordinates viewer
                (normalizedX + normalizedWidth) (normalizedY + normalizedHeight) in
            Some {| c_type := Some "box"%string;
                    c_x := fst topLeftWSI; c_y := snd topLeftWSI;
                    c_width := Some (fst bottomRightWSI - fst topLeftWSI);
                    c_height := Some (snd bottomRightWSI - snd topLeftWSI) |}
        | _ => None
        end
      else if String.eqb (s_type selector) "FragmentSelector" then
        match matchXywhPixel P (s_value selector) with
        | Some (x, y, width, height) =>
            Some {| c_type := if Qeq_bool width 0 && Qeq_bool height 0
                              then Some "point"%string else Some "box"%string;
                    c_x := x; c_y := y;
                    c_width := Some width; c_height := Some height |}
        | None => None
        end
      else None
  end.

(** [{left, top, width, height}] *)
Record WsiRegion : Type := mkWsiRegion {
  left : Q;
  top : Q;
  r_width : Q;
  r_height : Q
}.

(** [{width, height}] *)
Record ViewportShape : Type := mkViewportShape {
  s_width : Q;
  s_height : Q
}.

Definition wsiRegionOf (vb : ViewportBounds) : WsiRegion :=
  {| left := vb_x vb; top := vb_y vb;
     r_width := vb_width vb; r_height := vb_height vb |}.

Definition viewportShapeOf (imageInfo : ImageInfo) : ViewportShape :=
  {| s_width := ii_width imageInfo; s_height := ii_height imageInfo |}.

(** [wsiToViewportCoords(wsiPoint, wsiRegion, viewportShape)].  The
    rational quotient is the JavaScript one for a region of non-zero
    size. *)
Definition wsiToViewportCoords (wsiPoint : Q * Q) (wsiRegion : WsiRegion)
    (viewportShape : ViewportShape) : Q * Q :=
  let '(wsiX, wsiY) := wsiPoint in
  let relX := (wsiX - left wsiRegion) / r_width wsiRegion in
  let relY := (wsiY - top wsiRegion) / r_height wsiRegion in
  let viewportX := Math_floor (relX * s_width viewportShape) in
  let viewportY := Math_floor (relY * s_height viewportShape) in
  (viewportX, viewportY).

(** [viewportToWsiCoords(viewportCoords, wsiRegion, viewportShape)].
    The rational quotient is the JavaScript one for a canvas of
    non-zero size. *)
Definition viewportToWsiCoords (viewportCoords : list Position)
    (wsiRegion : WsiRegion) (viewportShape : ViewportShape)
    : list (JsNum * JsNum) :=
  let widthInv := 1 / s_width viewportShape in
  let heightInv := 1 / s_height viewportShape in
  map (fun coord : Position =>
         let '(vpX, vpY) := coord in
         (Fin (left wsiRegion + vpX * widthInv * r_width wsiRegion),
          Fin (top wsiRegion + vpY * heightInv * r_height wsiRegion)))
    viewportCoords.

(** [transformWSIToCanvasCoordinates(coords, imageInfo)] of this
    module.  Reading a property of a missing [viewportBounds] throws. *)
Definition transformWSIToCanvasCoordinates (coords : Coords)
    (imageInfo : ImageInfo) : Completion (option Coords) :=
  match viewportBounds imageInfo with
  | None => Throw "TypeError: viewportBounds is null"
  | Some vb =>
      let viewportShape := viewportShapeOf imageInfo in
      let wsiRegion := wsiRegionOf vb in
      match c_type coords with
      | Some type =>
          if String.eqb type "point" then
            let canvasCoords :=
              wsiToViewportCoords (c_x coords, c_y coords) wsiRegion viewportShape in
            Normal (Some {| c_type := None;
                            c_x := fst canvasCoords; c_y := snd canvasCoords;
                            c_width := None; c_height := None |})
          else if String.eqb type "box" then
            match c_width coords, c_height coords with
            | Some width, Some height =>
                let topLeft :=
                  wsiToViewportCoords (c_x coords, c_y coords)
                    wsiRegion viewportShape in
                let bottomRight :=
                  wsiToViewportCoords (c_x coords + width, c_y coords + height)
                    wsiRegion viewportShape in
                Normal (Some {| c_type := None;
                                c_x := fst topLeft; c_y := snd topLeft;
                                c_width := Some (fst bottomRight - fst topLeft);
                                c_height := Some (snd bottomRight - snd topLeft) |})
            | _, _ =>
                (* a box always carries its width and height *)
                Normal None
            end
          else Normal None
      | None => Normal None
      end
  end.

(** [transformCanvasToWSICoordinates(coordinates, imageInfo)] of this
    module: the first ring only. *)
Definition transformCanvasToWSICoordinates (coordinates : list (list Position))
    (imageInfo : ImageInfo) : Completion (option WsiCoordinates) :=
  match coordinates with
  | [] => Normal None
  | ring0 :: _ =>
      match viewportBounds imageInfo with
      | None => Throw "TypeError: viewportBounds is null"
      | Some vb =>
          let viewportShape := viewportShapeOf imageInfo in
          let wsiRegion := wsiRegionOf vb in
          let wsiCoords := viewportToWsiCoords ring0 wsiRegion viewportShape in
          Normal (Some (WsiRings [wsiCoords]))
      end
  end.

(** [createSVGPathFromWSICoordinates(wsiCoordinates)] of this module:
    an SVG polygon through the first ring.  For a list of points the
    first entry is a point, whose two numbers have no entries. *)
Definition createSVGPathFromWSICoordinates (P : Platform)
    (wsiCoordinates : WsiCoordinates) : string :=
  let dquote := AnnotationManager.dquote in
  match wsiCoordinates with
  | WsiRings ((c0 :: rest) :: _) =>
      let pathData :=
        fold_left (fun pathData coord =>
                     pathData ++ " " ++ AnnotationManager.showCoord P coord)
          rest ("<svg><polygon points=" ++ dquote
                  ++ AnnotationManager.showCoord P c0) in
      pathData ++ dquote ++ " /></svg>"
  | WsiPoints (_ :: _) =>
      "<svg><polygon points=" ++ dquote
        ++ "undefined,undefined undefined,undefined" ++ dquote ++ " /></svg>"
  | _ => EmptyString
  end%string.

(** The two bindings of the doubly declared names. *)
Definition samApiGlobals (P : Platform) : Globals :=
  {| g_extractCoordinatesFromAnnotation := extractCoordinatesFromAnnotation P;
     g_transformWSIToCanvasCoordinates :=
       fun _ _ coords imageInfo => transformWSIToCanvasCoordinates coords imageInfo;
     g_transformCanvasToWSICoordinates :=
       fun _ _ coordinates imageInfo =>
         transformCanvasToWSICoordinates coordinates imageInfo;
     g_createSVGPathFromWSICoordinates := createSVGPathFromWSICoordinates P |}.

Definition otherGlobals (P : Platform) : Globals :=
  {| g_extractCoordinatesFromAnnotation :=
       fun _ => AnnotationManager.extractCoordinatesFromAnnotation P;
     g_transformWSIToCanvasCoordinates :=
       fun viewer window_currentImageInfo coords imageInfo =>
         Normal (Some (CoordinateTransforms.transformWSIToCanvasCoordinates
                         viewer window_currentImageInfo coords (Some imageInfo)));
     g_transformCanvasToWSICoordinates :=
       fun viewer window_currentImageInfo coordinates imageInfo =>
         CoordinateTransforms.transformCanvasToWSICoordinates
           viewer window_currentImageInfo (Some (CoordRings coordinates))
           (Some imageInfo);
     g_createSVGPathFromWSICoordinates :=
       AnnotationManager.createSVGPathFromWSICoordinates P |}.

(** ** Candidate selection *)

(** The array format: masks with a geometry and properties become
    features with defaulted properties, the others are dropped. *)
Definition featureOfMask (mask : Feature) : option Feature :=
  match f_geometry mask, f_properties mask with
  | Some geometry, Some properties =>
      Some {| f_geometry := Some geometry;
              f_properties :=
                Some {| quality :=
                          match quality properties with
                          | Some q => if truthy q then Some q else Some (1 # 2)
                          | None => Some (1 # 2)
                          end;
                        sam_model :=
                          match sam_model properties with
                          | Some m => if truthyString m then Some m
                                      else Some "mobile-sam"%string
                          | None => Some "mobile-sam"%string
                          end;
                        object_idx :=
                          match object_idx properties with
                          | Some i => if truthy i then Some i else Some 0
                          | None => Some 0
                          end |} |}
  | _, _ => None
  end.

Fixpoint featuresOfMasks (masks : list Feature) : list Feature :=
  match masks with
  | [] => []
  | mask :: rest =>
      match featureOfMask mask with
      | Some feature => feature :: featuresOfMasks rest
      | None => featuresOfMasks rest
      end
  end.

(** The [forEach] that sets [feature.calculatedArea]. *)
Definition calculatedArea (feature : Feature) : Area :=
  match f_geometry feature with
  | Some geometry =>
      match g_coordinates geometry with
      | Some (coords :: _) => Finite (calculatePolygonArea coords)
      | _ => Infinity
      end
  | None => Infinity
  end.

(** [a.calculatedArea - b.calculatedArea > 0]; the difference of two
    infinities is [NaN], which the sort takes as zero. *)
Definition comparesAfter (a b : Feature) : bool :=
  match calculatedArea a, calculatedArea b with
  | Finite x, Finite y => negb (Qle_bool x y)
  | Infinity, Finite _ => true
  | Finite _, Infinity => false
  | Infinity, Infinity => false
  end.

(** [features.sort((a, b) => a.calculatedArea - b.calculatedArea)]:
    the stable sort of the language, as an insertion sort. *)
Fixpoint insertFeature (feature : Feature) (sorted : list Feature) : list Feature :=
  match sorted with
  | [] => [feature]
  | g :: rest =>
      if comparesAfter feature g then g :: insertFeature feature rest
      else feature :: sorted
  end.

Definition sortFeatures (features : list Feature) : list Feature :=
  fold_right insertFeature [] features.

(** The features of a response ([None]: unrecognized format). *)
Definition featuresOf (samResult : SamResult) : option (list Feature) :=
  match samResult with
  | SamFalsy => None
  | SamArray masks => Some (featuresOfMasks masks)
  | SamObject (Some features) => Some features
  | SamObject None => None
  end.

(** [bestFeature]: the head of the sorted features. *)
Definition bestFeature (features : list Feature) : option Feature :=
  head (sortFeatures features).

(** [convertSAMResultToAnnotation(samResult, originalAnnotation, imageInfo)].
    [stamp] and [rnd] are the texts of [Date.now()] and of the random
    suffix; an exception inside is caught and gives [null]. *)
Definition convertSAMResultToAnnotation (G : Globals)
    (viewer : option Viewer) (window_currentImageInfo : option ImageInfo)
    (samResult : SamResult) (originalAnnotation : Annotation)
    (imageInfo : ImageInfo) (stamp rnd : string) : option Annotation :=
  match featuresOf samResult with
  | None => None
  | Some features =>
      match bestFeature features with
      | None => None
      | Some best =>
          match f_geometry best with
          | None => None
          | Some geometry =>
              match g_coordinates geometry with
              | None => None
              | Some coordinates =>
                  match g_transformCanvasToWSICoordinates G viewer
                          window_currentImageInfo coordinates imageInfo with
                  | Throw _ => None
                  | Normal None => None
                  | Normal (Some wsiCoordinatesForDisplay) =>
                      let svgPath :=
                        g_createSVGPathFromWSICoordinates G wsiCoordinatesForDisplay in
                      Some {| a_id := ("sam-" ++ stamp ++ "-" ++ rnd)%string;
                              a_target :=
                                Some {| t_source :=
                                          match a_target originalAnnotation with
                                          | Some target => t_source target
                                          | None => None
                                          end;
                                        t_selector :=
                                          Some {| s_type := "SvgSelector";
                                                  s_value := svgPath |} |};
                              a_selector := a_selector originalAnnotation;
                              a_body :=
                                Some [ {| b_type := Some "TextualBody"%string;
                                          b_purpose := None;
                                          b_value := Some "Annotation"%string |} ];
                              a_samGenerated := a_samGenerated originalAnnotation;
                              a_samTool := a_samTool originalAnnotation |}
                  end
              end
          end
      end
  end.

(** The payload of [processSAMPrompt]; reading [x] of a missing
    [canvasCoords] throws. *)
Definition samPayload (currentTool : string) (imageInfo : ImageInfo)
    (canvasCoords : option Coords) : Completion SamPayload :=
  let base :=
    {| p_type := "vit_h"; p_b64img := imageData imageInfo;
       p_multimask_output := false;
       p_point_coords := None; p_point_labels := None; p_bbox := None |} in
  if String.eqb currentTool "sam-point" then
    match canvasCoords with
    | None => Throw "TypeError: canvasCoords is null"
    | Some c =>
        Normal {| p_type := p_type base; p_b64img := p_b64img base;
                  p_multimask_output := false;
                  p_point_coords := Some [(c_x c, c_y c)];
                  p_point_labels := Some [1%Z];
                  p_bbox := None |}
    end
  else if String.eqb currentTool "sam-rect" then
    match canvasCoords with
    | None => Throw "TypeError: canvasCoords is null"
    | Some c =>
        let plus (a : Q) (b : option Q) : JsNum :=
          match b with Some b => Fin (a + b) | None => NaN end in
        Normal {| p_type := p_type base; p_b64img := p_b64img base;
                  p_multimask_output := false;
                  p_point_coords := None; p_point_labels := None;
                  p_bbox := Some (Fin (c_x c), Fin (c_y c),
                                  plus (c_x c) (c_width c),
                                  plus (c_y c) (c_height c)) |}
    end
  else Normal base.

(** ** [processSAMPrompt(promptAnnotation)]

    The function suspends at the remote call.  Its first part runs
    from the call to the [fetch]; its second part runs when the
    response has arrived.  Other handlers of the page run in between. *)

(** Up to the [fetch]: the capture, the global that is set to the
    captured object itself, the coordinates and the payload.  The
    result is the reference held in the local [imageInfo] and the
    payload sent. *)
Definition processSAMPrompt_request (G : Globals) (pg : Page)
    (promptAnnotation : Annotation) : Page * Completion (nat * SamPayload) :=
  if negb (samConnected pg) then (pg, Throw "SAM API not connected")
  else
    match getCurrentImageData (viewer pg) with
    | None => (pg, Throw "Could not capture current image data")
    | Some captured =>
        let imageInfo := length (imageInfos pg) in
        let pg :=
          setWindowCurrentImageInfo (Some imageInfo)
            (setImageInfos (imageInfos pg ++ [captured]) pg) in
        match g_extractCoordinatesFromAnnotation G (viewer pg) promptAnnotation with
        | None => (pg, Throw "Could not extract coordinates from prompt")
        | Some coords =>
            match g_transformWSIToCanvasCoordinates G (viewer pg)
                    (currentImageInfoOf pg) coords captured with
            | Throw message => (pg, Throw message)
            | Normal canvasCoords =>
                match samPayload (currentTool pg) captured canvasCoords with
                | Throw message => (pg, Throw message)
                | Normal payload => (pg, Normal (imageInfo, payload))
                end
            end
        end
    end.

(** From the response on.  The local [imageInfo] is read through its
    reference, in the page as it is by then. *)
Definition processSAMPrompt_response (G : Globals) (pg : Page)
    (imageInfo : nat) (promptAnnotation : Annotation)
    (response : FetchOutcome) (stamp rnd : string)
    : Completion (option Annotation) :=
  match response with
  | FetchRejected => Throw "TypeError: Failed to fetch"
  | FetchResponse true (Some samResult) =>
      match imageInfos pg !! imageInfo with
      | Some info =>
          Normal (convertSAMResultToAnnotation G (viewer pg)
                    (currentImageInfoOf pg) samResult promptAnnotation
                    info stamp rnd)
      | None => Throw "imageInfo is not an object"
      end
  | FetchResponse true None => Throw "SyntaxError: the body is not JSON"
  | FetchResponse false _ => Throw "SAM API request failed"
  end.

End SamApi.

(* ===================================================================== *)
(** * js/core/viewer-core.js                                              *)
(* ===================================================================== *)

Module ViewerCore.

(** [anno.removeAnnotation(id)] and [anno.addAnnotation(annotation)]
    of Annotorious: removing an absent id does nothing, adding an id
    that is present replaces it. *)
Definition anno_removeAnnotation (id : string) (l : list Annotation)
    : list Annotation :=
  AnnotationManager.keepOthers id l.

Definition anno_addAnnotation (annotation : Annotation) (l : list Annotation)
    : list Annotation :=
  AnnotationManager.keepOthers (a_id annotation) l ++ [annotation].

(** [ensureAddAnnotation(annotation)], with annotation-manager.js
    loaded. *)
Definition ensureAddAnnotation (annotation : Annotation) (pg : Page) : Page :=
  setAnnotations
    (AnnotationManager.addAnnotation (currentTool pg) annotation (annotations pg))
    pg.

(** The handler of [animation-finish] installed by
    [setupDynamicImageInfoUpdates]: the object behind
    [window.currentImageInfo] gets the bounds of the viewport as it is
    now. *)
Definition animationFinish (pg : Page) : Page :=
  match window_currentImageInfo pg with
  | Some ref =>
      match imageInfos pg !! ref with
      | Some info =>
          match CoordinateTransforms.getCurrentViewportBounds (viewer pg) with
          | Some newViewportBounds =>
              setImageInfos
                (<[ref := setViewportBounds (Some newViewportBounds) info]>
                   (imageInfos pg)) pg
          | None => pg
          end
      | None => pg
      end
  | None => pg
  end.

(** The locals of one run of the [createAnnotation] handler that is
    waiting for the remote call. *)
Record InFlight : Type := mkInFlight {
  annotation : Annotation;
  originalAnnotationId : string;
  tempAnnotation : Annotation;
  imageInfo : nat;
  samPayload : SamPayload
}.

(** [{...annotation, id: 'temp-' + Date.now(), target: annotation.target}] *)
Definition makeTempAnnotation (annotation : Annotation) (now : string) : Annotation :=
  {| a_id := "temp-" ++ now;
     a_target := a_target annotation;
     a_selector := a_selector annotation;
     a_body := a_body annotation;
     a_samGenerated := a_samGenerated annotation;
     a_samTool := a_samTool annotation |}.

(** The [catch] callback, and the [then] callback for [null]. *)
Definition keepOriginal (annotation : Annotation) (pg : Page) : Page :=
  ensureAddAnnotation annotation pg.

(** The [then] callback for a SAM annotation. *)
Definition replaceAnnotation (annotation : Annotation)
    (originalAnnotationId : string) (samAnnotation : Annotation)
    (pg : Page) : Page * Annotation :=
  (* Transfer popup data *)
  let samAnnotation :=
    match a_body annotation with
    | Some ((_ :: _) as body) =>
        {| a_id := a_id samAnnotation;
           a_target := a_target samAnnotation;
           a_selector := a_selector samAnnotation;
           a_body := Some body;
           a_samGenerated := a_samGenerated samAnnotation;
           a_samTool := a_samTool samAnnotation |}
    | _ => samAnnotation
    end in
  (* Remove original prompt and add SAM result *)
  let pg :=
    setAnno (anno_addAnnotation samAnnotation
               (anno_removeAnnotation originalAnnotationId (anno pg))) pg in
  (ensureAddAnnotation samAnnotation pg, samAnnotation).

(** The [createAnnotation] handler, up to the remote call.  [now] is
    the text of [Date.now()]. *)
Definition onCreateAnnotation (G : Globals) (annotation : Annotation)
    (now : string) (pg : Page) : Page * option InFlight :=
  if startsWith (currentTool pg) "sam-" && samConnected pg && samLiveMode pg then
    let originalAnnotationId := a_id annotation in
    let tempAnnotation := makeTempAnnotation annotation now in
    match SamApi.processSAMPrompt_request G pg tempAnnotation with
    | (pg, Normal (imageInfo, payload)) =>
        (pg, Some {| annotation := annotation;
                     originalAnnotationId := originalAnnotationId;
                     tempAnnotation := tempAnnotation;
                     imageInfo := imageInfo;
                     samPayload := payload |})
    | (pg, Throw _) => (keepOriginal annotation pg, None)
    end
  else
    (* Regular manual annotation *)
    (ensureAddAnnotation annotation pg, None).


(** [setActiveTool(tool)] on the global. *)
Definition setActiveTool (tool : string) (pg : Page) : Page :=
  setCurrentTool tool pg.

(** The [Delete] and [Backspace] shortcut on a selected annotation:
    [anno.removeAnnotation(selected[0])]. *)
Definition deleteKey (selected : Annotation) (pg : Page) : Page :=
  setAnno (anno_removeAnnotation (a_id selected) (anno pg)) pg.

(** What the user can do while a run is waiting. *)
Inductive UserAction : Type :=
| PanZoom (moved : Viewer)
| DeleteKey (selected : Annotation)
| SetActiveTool (tool : string).

Definition act (pg : Page) (action : UserAction) : Page :=
  match action with
  | PanZoom moved => animationFinish (setViewer (Some moved) pg)
  | DeleteKey selected => deleteKey selected pg
  | SetActiveTool tool => setActiveTool tool pg
  end.

Definition actAll (actions : list UserAction) (pg : Page) : Page :=
  fold_left act actions pg.

End ViewerCore.

(* ===================================================================== *)
(** * Scenarios and stated properties                                     *)
(* ===================================================================== *)

Module Scenario.

Local Open Scope Q_scope.

(** The descriptor of the specification's scenario: offset
    (1000, 2000), 500 x 500 image pixels, downsample 2. *)
Definition descriptor : ViewportBounds :=
  {| vb_x := 1000; vb_y := 2000; vb_width := 500; vb_height := 500;
     vb_downsample := Some 2 |}.

(** A capture of 250 x 250 pixels with that descriptor. *)
Definition snapshot : ImageInfo :=
  {| imageData := "/9j/4AAQ"; ii_width := 250; ii_height := 250; ii_scale := 1;
     viewportBounds := Some descriptor; containerSize := (250, 250) |}.

(** A viewer over an image of 40000 x 40000 pixels that shows the
    region of the descriptor at zoom 1/2. *)
Definition viewerAt (x y : Q) : Viewer :=
  {| getBounds := (x / 40000, y / 40000, 1 # 80, 1 # 80);
     viewportToImageCoordinates := fun p => (fst p * 40000, snd p * 40000);
     getZoom := fun _ => 1 # 2;
     getContainerSize := (250, 250);
     canvasDataURL := Some "/9j/4AAQ"%string |}.

Definition theViewer : Viewer := viewerAt 1000 2000.

Definition pointAt (x y : Q) : Coords :=
  {| c_type := Some "point"%string; c_x := x; c_y := y;
     c_width := None; c_height := None |}.

(** A platform that reads the one fragment used below and prints
    integers in decimal (other rationals as a fraction). *)
Definition showNumber (n : JsNum) : string :=
  match n with
  | Fin q =>
      let r := Qred q in
      if Pos.eqb (Qden r) 1 then NilZero.string_of_int (Z.to_int (Qnum r))
      else (NilZero.string_of_int (Z.to_int (Qnum r)) ++ "/"
              ++ NilZero.string_of_int (Z.to_int (Zpos (Qden r))))%string
  | NaN => "NaN"%string
  end.

Definition platform : Platform :=
  {| svgShapes := fun _ => [];
     matchXywhPixel := fun value =>
       if String.eqb value "xywh=pixel:1200,2200,40,40"
       then Some (1200, 2200, 40, 40) else None;
     numberToString := showNumber |}.

(** A box drawn by the user, as Annotorious creates it. *)
Definition drawnBox : Annotation :=
  {| a_id := "#a1b2c3";
     a_target :=
       Some {| t_source := Some "slide"%string;
               t_selector :=
                 Some {| s_type := "FragmentSelector";
                         s_value := "xywh=pixel:1200,2200,40,40" |} |};
     a_selector := None;
     a_body := Some [];
     a_samGenerated := false;
     a_samTool := None |}.

(** The page with the SAM rectangle tool active, the service
    connected, and the box just drawn. *)
Definition page : Page :=
  {| viewer := Some theViewer;
     currentTool := "sam-rect";
     samConnected := true;
     samLiveMode := true;
     imageInfos := [];
     window_currentImageInfo := None;
     anno := [drawnBox];
     annotations := ∅ |}.

Definition ring (l : list (Q * Q)) : list Position := l.

Definition polygonFeature (rings : list (list Position)) : Feature :=
  {| f_geometry := Some {| g_type := "Polygon"; g_coordinates := Some rings |};
     f_properties := Some {| quality := Some (9 # 10);
                             sam_model := Some "vit_h"%string;
                             object_idx := Some 0 |} |}.

(** The three candidates of the specification: a square of area 400,
    a square of area 100, a triangle of area 50. *)
Definition square400 : Feature :=
  polygonFeature [ring [(0, 0); (20, 0); (20, 20); (0, 20)]].
Definition square100 : Feature :=
  polygonFeature [ring [(30, 30); (40, 30); (40, 40); (30, 40)]].
Definition triangle50 : Feature :=
  polygonFeature [ring [(50, 50); (60, 50); (50, 60)]].

(** What [getCurrentImageData] returns for [theViewer]: the snapshot,
    its descriptor without a downsample. *)
Definition captured : ImageInfo :=
  setViewportBounds
    (Some {| vb_x := 1000; vb_y := 2000; vb_width := 500; vb_height := 500;
             vb_downsample := None |}) snapshot.

(** The page while the request for [drawnBox] is under way, and the
    locals of the waiting handler (sam-api.js bound last). *)
Definition waitingPage : Page :=
  {| viewer := Some theViewer;
     currentTool := "sam-rect";
     samConnected := true;
     samLiveMode := true;
     imageInfos := [captured];
     window_currentImageInfo := Some 0%nat;
     anno := [drawnBox];
     annotations := ∅ |}.

Definition theRun : ViewerCore.InFlight :=
  {| ViewerCore.annotation := drawnBox;
     ViewerCore.originalAnnotationId := "#a1b2c3";
     ViewerCore.tempAnnotation :=
       ViewerCore.makeTempAnnotation drawnBox "1700000000000";
     ViewerCore.imageInfo := 0%nat;
     ViewerCore.samPayload :=
       {| p_type := "vit_h"; p_b64img := "/9j/4AAQ";
          p_multimask_output := false;
          p_point_coords := None; p_point_labels := None;
          p_bbox := Some (Fin 100, Fin 100, Fin 120, Fin 120) |} |}.

(** A response with one mask, the triangle. *)
Definition triangleResponse : FetchOutcome :=
  FetchResponse true (Some (SamArray [triangle50])).

(** The coordinates of the first ring of a reverse-transform result,
    as they are printed into the selector. *)
Definition printed (result : option (Completion (option WsiCoordinates)))
    : list string :=
  match result with
  | Some (Normal (Some (WsiRings (r :: _)))) =>
      map (AnnotationManager.showCoord platform) r
  | _ => []
  end.

End Scenario.

Module Stated.

Local Open Scope Q_scope.


(** [x] is a pixel column and [y] a pixel row of a canvas of
    [width] x [height]. *)
Definition withinCanvas (width height x y : Q) : Prop :=
  0 <= x /\ x <= width - 1 /\ 0 <= y /\ y <= height - 1.

(** Order of candidate areas. *)
Definition areaLe (a b : Area) : Prop :=
  match a, b with
  | Finite x, Finite y => x <= y
  | _, Infinity => True
  | Infinity, Finite _ => False
  end.

(** [annotation] is listed under [tag] in the tag storage. *)
Definition listedUnder (tag : string) (annotation : Annotation)
    (annotations : gmap string (list Annotation)) : Prop :=
  exists l, annotations !! tag = Some l /\ In annotation l.

(** An annotation with [id] is held by Annotorious. *)
Definition heldByAnno (id : string) (pg : Page) : Prop :=
  exists a, In a (anno pg) /\ a_id a = id.

(** No item of the body is marked with the [tagging] purpose. *)
Definition hasNoTaggingItem (annotation : Annotation) : bool :=
  forallb (fun item => negb (AnnotationManager.purposeIs item "tagging"))
    (default [] (a_body annotation)).


(** The binding in which [transformCanvasToWSICoordinates] is the
    declaration of sam-api.js; the other three functions are free. *)
Definition withSamApiReverse
    (extract : option Viewer -> Annotation -> option Coords)
    (forward : option Viewer -> option ImageInfo -> Coords -> ImageInfo ->
               Completion (option Coords))
    (createSVGPath : WsiCoordinates -> string) : Globals :=
  {| g_extractCoordinatesFromAnnotation := extract;
     g_transformWSIToCanvasCoordinates := forward;
     g_transformCanvasToWSICoordinates :=
       fun _ _ coordinates imageInfo =>
         SamApi.transformCanvasToWSICoordinates coordinates imageInfo;
     g_createSVGPathFromWSICoordinates := createSVGPath |}.

(** The last viewport the user moved to, if any. *)
Fixpoint lastMove (actions : list ViewerCore.UserAction) : option Viewer :=
  match actions with
  | [] => None
  | action :: rest =>
      match lastMove rest with
      | Some moved => Some moved
      | None =>
          match action with
          | ViewerCore.PanZoom moved => Some moved
          | _ => None
          end
      end
  end.


(** The descriptor attached to the snapshot behind [ref], as the page
    has it. *)
Definition descriptorOf (pg : Page) (ref : nat) : option ViewportBounds :=
  imageInfos pg !! ref ≫= viewportBounds.

End Stated.

(* ===================================================================== *)
(** * The rest of js/modules/annotation-manager.js                        *)
(* ===================================================================== *)

Module AnnotationLists.

Import AnnotationManager.
Local Open Scope string_scope.

(** The test of the first loop of [getAnnotationName]: a purpose of
    commenting or replying, or a [TextualBody] without a purpose. *)
Definition isComment (item : BodyItem) : bool :=
  purposeIs item "commenting" || purposeIs item "replying" ||
  (match b_type item with
   | Some type => String.eqb type "TextualBody"
   | None => false
   end &&
   (purposeIs item "commenting" ||
    match b_purpose item with
    | Some purpose => negb (truthyString purpose)
    | None => true
    end)).

(** The first loop: the first item with text that is a comment. *)
Fixpoint firstComment (body : list BodyItem) : option string :=
  match body with
  | [] => None
  | item :: rest =>
      if hasText item && isComment item
      then Some (trim (default EmptyString (b_value item)))
      else firstComment rest
  end.

(** The fallback loop: the first item with text. *)
Fixpoint firstText (body : list BodyItem) : option string :=
  match body with
  | [] => None
  | item :: rest =>
      if hasText item
      then Some (trim (default EmptyString (b_value item)))
      else firstText rest
  end.

(** [getAnnotationName(annotation)] *)
Definition getAnnotationName (annotation : Annotation) : string :=
  match a_body annotation with
  | Some ((_ :: _) as body) =>
      match firstComment body with
      | Some comment => comment
      | None =>
          match firstText body with
          | Some fallbackComment => fallbackComment
          | None => "[Others]"
          end
      end
  | _ => "[Others]"
  end.



(** [deleteAnnotation(annotation, category)]: off the viewer, and
    filtered out of the arrays of its tags. *)
Definition deleteAnnotation (annotation : Annotation) (pg : Page) : Page :=
  let pg := setAnno (ViewerCore.anno_removeAnnotation (a_id annotation) (anno pg)) pg in
  setAnnotations
    (removeAnnotationFromList (currentTool pg) annotation (annotations pg)) pg.

(** The [forEach] of [deleteFolderAndAnnotations]:
    [anno.removeAnnotation(annotation.id)] for each annotation of the
    folder. *)
Definition removeAllFromViewer (folder : list Annotation)
    (held : list Annotation) : list Annotation :=
  fold_left (fun held annotation =>
               ViewerCore.anno_removeAnnotation (a_id annotation) held) folder held.

(** [deleteFolderAndAnnotations(tag)]; [confirmed] is the answer to the
    confirmation dialog, which is shown for a folder that is not
    empty. *)
Definition deleteFolderAndAnnotations (tag : string) (confirmed : bool)
    (pg : Page) : Page :=
  match annotations pg !! tag with
  | Some ((_ :: _) as folder) =>
      if confirmed then
        setAnnotations (delete tag (annotations pg))
          (setAnno (removeAllFromViewer folder (anno pg)) pg)
      else pg
  | _ => pg
  end.

(** [toggleAnnotationVisibility(annotation, visibilityIcon)]; [isHidden]
    is the class of the icon.  The result is the page and the new
    class. *)
Definition toggleAnnotationVisibility (annotation : Annotation) (isHidden : bool)
    (pg : Page) : Page * bool :=
  if isHidden then
    (* Show annotation *)
    let exists_ :=
      existsb (fun a => String.eqb (a_id a) (a_id annotation)) (anno pg) in
    (if exists_ then pg
     else setAnno (ViewerCore.anno_addAnnotation annotation (anno pg)) pg,
     false)
  else
    (* Hide annotation *)
    (setAnno (ViewerCore.anno_removeAnnotation (a_id annotation) (anno pg)) pg, true).

(** ** Export *)

Definition backslash : ascii := "092"%char.

Definition isDigit (c : ascii) : bool :=
  let n := nat_of_ascii c in (48 <=? n)%nat && (n <=? 57)%nat.

(** The class [[0-9.]] *)
Definition isDigitOrDot (c : ascii) : bool :=
  isDigit c || Ascii.eqb c "."%char.

(** The class [[,\\s]] of the pattern as it is written: a comma, a
    backslash, the letter s. *)
Definition isSeparator (c : ascii) : bool :=
  Ascii.eqb c ","%char || Ascii.eqb c backslash || Ascii.eqb c "s"%char.

(** The longest prefix of characters of a class, and the rest. *)
Fixpoint span (p : ascii -> bool) (s : string) : string * string :=
  match s with
  | EmptyString => (EmptyString, EmptyString)
  | String c s' =>
      if p c then let '(taken, rest) := span p s' in (String c taken, rest)
      else (EmptyString, s)
  end.

(** A match of [/[ML]\\s*([0-9.]+)[,\\s]+([0-9.]+)/] at the start of
    [s]: M or L, a backslash, any number of s, the first group, at least
    one separator, the second group.  The result is the two groups and
    what follows the match.  No class overlaps the next one, so the
    greedy match is the only one. *)
Definition matchAt (s : string) : option (string * string * string) :=
  match s with
  | String c (String b s2) =>
      if (Ascii.eqb c "M"%char || Ascii.eqb c "L"%char) && Ascii.eqb b backslash then
        let s3 := snd (span (fun c => Ascii.eqb c "s"%char) s2) in
        let '(group1, s4) := span isDigitOrDot s3 in
        let '(separators, s5) := span isSeparator s4 in
        let '(group2, rest) := span isDigitOrDot s5 in
        if truthyString group1 && truthyString separators && truthyString group2
        then Some (group1, group2, rest)
        else None
      else None
  | _ => None
  end.

(** The [while ((match = pathRegex.exec(value)) !== null)] loop: the
    matches from left to right, each search starting where the last
    match ended.  [skip] counts the characters of the last match that
    are still ahead. *)
Fixpoint execAll (s : string) (skip : nat) : list (string * string) :=
  match s with
  | EmptyString => []
  | String _ s' =>
      match skip with
      | S k => execAll s' k
      | O =>
          match matchAt s with
          | Some (group1, group2, rest) =>
              (group1, group2)
                :: execAll s' (String.length s - String.length rest - 1)
          | None => execAll s' 0
          end
      end
  end.

(** The value of a string of decimal digits. *)
Definition digitsValue (digits : string) : Z :=
  fold_left (fun value c => (10 * value + Z.of_nat (nat_of_ascii c - 48))%Z)
    (list_ascii_of_string digits) 0%Z.

(** [parseFloat] on a string of digits and dots: the digits, a dot and
    more digits, up to a second dot; [NaN] without a digit. *)
Definition parseFloat (s : string) : JsNum :=
  let '(whole, rest) := span isDigit s in
  match rest with
  | String _ afterDot =>
      let fraction := fst (span isDigit afterDot) in
      if negb (truthyString whole) && negb (truthyString fraction) then NaN
      else Fin (inject_Z (digitsValue whole)
                + inject_Z (digitsValue fraction)
                  / inject_Z (10 ^ Z.of_nat (String.length fraction)))%Q
  | EmptyString =>
      if truthyString whole then Fin (inject_Z (digitsValue whole)) else NaN
  end.

(** The one element of an exported annotation. *)
Record ExportElement : Type := mkExportElement {
  e_fillColor : string;
  e_lineColor : string;
  e_lineWidth : Z;
  e_rotation : Z;
  e_normal : list Z;
  e_id : string;
  e_type : string;
  e_closed : bool;
  e_points : list (JsNum * JsNum * Z)
}.

Record ExportData : Type := mkExportData {
  x_accessLevel : Z;
  x_id : string;
  x_modelType : string;
  x_version : string;
  x_description : string;
  x_elements : list ExportElement
}.

(** [convertAnnotationToExportFormat(annotation)]; [now] is the value of
    [Date.now()]. *)
Definition convertAnnotationToExportFormat (annotation : Annotation)
    (now : string) : option ExportData :=
  match a_target annotation with
  | None => None
  | Some target =>
      match t_selector target with
      | None => None
      | Some selector =>
          let coordinates :=
            if String.eqb (s_type selector) "SvgSelector"
               && truthyString (s_value selector)
            then map (fun groups : string * string =>
                        (parseFloat (fst groups), parseFloat (snd groups), 0%Z))
                   (execAll (s_value selector) 0)
            else [] in
          let description :=
            match a_body annotation with
            | Some (item :: _) =>
                match b_value item with
                | Some value => if truthyString value then value else "Annotation"
                | None => "Annotation"
                end
            | _ => "Annotation"
            end in
          Some {| x_accessLevel := 2;
                  x_id := a_id annotation;
                  x_modelType := "annotation";
                  x_version := now;
                  x_description := description;
                  x_elements :=
                    [ {| e_fillColor := "rgba(0,0,0,0)";
                         e_lineColor := if includes description "SAM"
                                        then "rgb(0,255,255)" else "rgb(0,0,0)";
                         e_lineWidth := 2;
                         e_rotation := 0;
                         e_normal := [0; 0; 1]%Z;
                         e_id := a_id annotation;
                         e_type := "polyline";
                         e_closed := true;
                         e_points := coordinates |} ] |}
      end
  end.

End AnnotationLists.

(* ===================================================================== *)
(** * The drawing tools of js/core/viewer-core.js                         *)
(* ===================================================================== *)

Module Tools.

Local Open Scope string_scope.

(** What the tool functions set besides [currentTool]: the drawing
    state of Annotorious and the quadrilateral flag. *)
Record Drawing : Type := mkDrawing {
  drawingEnabled : bool;
  drawingTool : option string;
  quadrilateralMode : bool
}.

Definition setDrawingEnabled (enabled : bool) (d : Drawing) : Drawing :=
  {| drawingEnabled := enabled; drawingTool := drawingTool d;
     quadrilateralMode := quadrilateralMode d |}.

Definition setDrawingTool (tool : string) (d : Drawing) : Drawing :=
  {| drawingEnabled := drawingEnabled d; drawingTool := Some tool;
     quadrilateralMode := quadrilateralMode d |}.

Definition setQuadrilateralMode (mode : bool) (d : Drawing) : Drawing :=
  {| drawingEnabled := drawingEnabled d; drawingTool := drawingTool d;
     quadrilateralMode := mode |}.

(** [setActiveTool(tool)] with Annotorious set up: the new
    [currentTool] and the drawing state. *)
Definition setActiveTool (tool : string) (d : Drawing) : string * Drawing :=
  let d := if String.eqb tool "quadrilateral" then d
           else setQuadrilateralMode false d in
  let d := setDrawingEnabled true d in
  let d :=
    if String.eqb tool "drag" then setDrawingEnabled false d
    else if String.eqb tool "sam-drag" then setDrawingEnabled false d
    else if String.eqb tool "circle" then setDrawingTool "circle" d
    else if String.eqb tool "rect" then setDrawingTool "rect" d
    else if String.eqb tool "quadrilateral"
         then setQuadrilateralMode true (setDrawingTool "polygon" d)
    else if String.eqb tool "point" then setDrawingTool "point" d
    else if String.eqb tool "freehand" then setDrawingTool "freehand" d
    else if String.eqb tool "scribble" then setDrawingTool "freehand" d
    else if String.eqb tool "sam-point" then setDrawingTool "point" d
    else if String.eqb tool "sam-rect" then setDrawingTool "rect" d
    else setDrawingTool tool d in
  (tool, d).

(** [maintainSAMToolState()] with Annotorious set up. *)
Definition maintainSAMToolState (currentTool : string) (d : Drawing) : Drawing :=
  if negb (startsWith currentTool "sam-") then d
  else
    let d := setDrawingEnabled true d in
    if String.eqb currentTool "sam-point" then setDrawingTool "point" d
    else if String.eqb currentTool "sam-rect" then setDrawingTool "rect" d
    else d.

End Tools.

(* ===================================================================== *)
(** * More scenarios                                                      *)
(* ===================================================================== *)

Module Cases.

Local Open Scope string_scope.

(** A tag typed into the popup. *)
Definition tumorTag : BodyItem :=
  {| b_type := Some "TextualBody"; b_purpose := Some "tagging";
     b_value := Some "  Tumor " |}.

(** A comment typed into the popup. *)
Definition comment : BodyItem :=
  {| b_type := Some "TextualBody"; b_purpose := Some "commenting";
     b_value := Some "mitotic figure" |}.

(** A SAM annotation that carries the tag. *)
Definition taggedSamAnnotation : Annotation :=
  {| a_id := "sam-1700000000001-k3j9x0a1b"; a_target := None;
     a_selector := None;
     a_body := Some [tumorTag];
     a_samGenerated := true; a_samTool := Some "sam-rect" |}.

(** The drawn box of the scenario with a comment and a tag. *)
Definition describedBox : Annotation :=
  {| a_id := a_id Scenario.drawnBox;
     a_target := a_target Scenario.drawnBox;
     a_selector := None;
     a_body := Some [comment; tumorTag];
     a_samGenerated := false; a_samTool := None |}.

End Cases.

(* ===================================================================== *)
(** * Properties                                                          *)
(* ===================================================================== *)

Section TransformFacts.

Import CoordinateTransforms.
Local Open Scope Q_scope.

Lemma truthy_pos (q : Q) : 0 < q -> truthy q = true.
Proof.
  intros Hq. unfold truthy.
  destruct (Qeq_bool q 0) eqn:E; [|reflexivity].
  apply Qeq_bool_iff in E. rewrite E in Hq.
  exfalso. revert Hq. apply Qlt_irrefl.
Qed.

Lemma clamp_range (lo hi t : Q) :
  lo <= hi -> lo <= Math_max lo (Math_min hi t) /\ Math_max lo (Math_min hi t) <= hi.
Proof.
  intros H. unfold Math_max, Math_min. split.
  - apply Q.le_max_l.
  - apply Q.max_lub; [assumption | apply Q.le_min_l].
Qed.



(** The forward transform when the descriptor it reads has a
    positive downsample. *)
Lemma forward_with_downsample (v : Viewer) (win : option ImageInfo)
    (coords : Coords) (info : ImageInfo) (vb : ViewportBounds) (ds : Q) :
  viewportBounds (default info win) = Some vb ->
  vb_downsample vb = Some ds ->
  0 < ds ->
  let p := if isNormalizedViewportCoordinate coords
           then viewportToImageCoordinates v (c_x coords, c_y coords)
           else (c_x coords, c_y coords) in
  let tx := Math_max 0 (Math_min (ii_width info - 1)
                          (Math_floor ((fst p - vb_x vb) / ds))) in
  let ty := Math_max 0 (Math_min (ii_height info - 1)
                          (Math_floor ((snd p - vb_y vb) / ds))) in
  transformCoordinatesToCanvasQuPathStyle (Some v) win coords (Some info) =
  {| c_type := None; c_x := tx; c_y := ty;
     c_width := (fun w => Math_max 1 (Math_min (ii_width info - tx) w))
                  <$> ((fun w => Math_floor (w / ds)) <$> c_width coords);
     c_height := (fun h => Math_max 1 (Math_min (ii_height info - ty) h))
                   <$> ((fun h => Math_floor (h / ds)) <$> c_height coords) |}.
Proof.
  intros Hvb Hds Hpos. unfold transformCoordinatesToCanvasQuPathStyle.
  rewrite Hvb, Hds, (truthy_pos ds Hpos). reflexivity.
Qed.


(** The sibling of the region-relative transform of sam-api.js: the
    QuPath-style forward transform clamps into the canvas. *)
Lemma quPath_forward_within_canvas (v : Viewer) (win : option ImageInfo)
    (coords : Coords) (info : ImageInfo) (vb : ViewportBounds) (ds : Q) :
  viewportBounds (default info win) = Some vb ->
  vb_downsample vb = Some ds ->
  0 < ds ->
  1 <= ii_width info -> 1 <= ii_height info ->
  let r := transformCoordinatesToCanvasQuPathStyle (Some v) win coords (Some info) in
  Stated.withinCanvas (ii_width info) (ii_height info) (c_x r) (c_y r).
Proof.
  intros Hvb Hds Hpos Hw Hh r. subst r.
  rewrite (forward_with_downsample v win coords info vb ds Hvb Hds Hpos).
  cbv zeta. unfold Stated.withinCanvas. cbn [c_x c_y].
  assert (Hw' : 0 <= ii_width info - 1) by lra.
  assert (Hh' : 0 <= ii_height info - 1) by lra.
  split; [apply clamp_range; assumption|].
  split; [apply clamp_range; assumption|].
  split; apply clamp_range; assumption.
Qed.

End TransformFacts.

Section CoordinateScenario.

Import CoordinateTransforms Scenario Stated.
Local Open Scope Q_scope.

(** C1.  With the descriptor offset (1000, 2000), 500 x 500,
    downsample 2, the forward transform maps the image point
    (1200, 2200) to the capture point (100, 100), and the reverse
    transform maps (100, 100) back to exactly (1200, 2200); with
    [window.currentImageInfo] unset and with it set to the snapshot. *)
Theorem scenario_forward_then_reverse (v : Viewer) :
  let capture := {| c_type := None; c_x := 100; c_y := 100;
                    c_width := None; c_height := None |} in
  transformCoordinatesToCanvasQuPathStyle (Some v) None
    (pointAt 1200 2200) (Some snapshot) = capture /\
  transformCoordinatesToCanvasQuPathStyle (Some v) (Some snapshot)
    (pointAt 1200 2200) (Some snapshot) = capture /\
  transformCanvasCoordinatesToWSIQuPathStyle (Some v) None
    (Some (CoordFlat [100; 100])) (Some snapshot)
    = Normal (Some (WsiPoints [(Fin 1200, Fin 2200)])) /\
  transformCanvasCoordinatesToWSIQuPathStyle (Some v) (Some snapshot)
    (Some (CoordFlat [100; 100])) (Some snapshot)
    = Normal (Some (WsiPoints [(Fin 1200, Fin 2200)])) /\
  debugRoundTrip (Some v) (Some snapshot) (pointAt 1200 2200) (Some snapshot)
    = Normal (Some (WsiRings [[(Fin 1200, Fin 2200)]])).
Proof.
  repeat split; vm_compute; reflexivity.
Qed.

End CoordinateScenario.

Section RoundTrip.

Import CoordinateTransforms Scenario Stated.
Local Open Scope Q_scope.




End RoundTrip.

Section CaptureDescriptor.

Import CoordinateTransforms Scenario Stated.
Local Open Scope Q_scope.

(** C3.  The region-relative forward transform of sam-api.js
    ([wsiToViewportCoords] behind [transformWSIToCanvasCoordinates])
    does not clamp.  With the visible region (1000, 2000) + 500 x 500
    and a capture of 250 x 250: the image point (1500, 2500), on the
    far corner of the region, goes to (250, 250), and the image point
    (10, 10), outside the region, goes to (-495, -995); neither lies in
    [0, 249] x [0, 249].  The QuPath-style transform maps both into the
    canvas. *)
Theorem region_relative_forward_leaves_canvas :
  SamApi.wsiToViewportCoords (1500, 2500)
    (SamApi.wsiRegionOf descriptor) (SamApi.viewportShapeOf snapshot)
    = (250, 250) /\
  SamApi.transformWSIToCanvasCoordinates (pointAt 1500 2500) snapshot
    = Normal (Some {| c_type := None; c_x := 250; c_y := 250;
                      c_width := None; c_height := None |}) /\
  ~ withinCanvas (ii_width snapshot) (ii_height snapshot) 250 250 /\
  SamApi.transformWSIToCanvasCoordinates (pointAt 10 10) snapshot
    = Normal (Some {| c_type := None; c_x := -495; c_y := -995;
                      c_width := None; c_height := None |}) /\
  ~ withinCanvas (ii_width snapshot) (ii_height snapshot) (-495) (-995) /\
  transformCoordinatesToCanvasQuPathStyle (Some theViewer) None
    (pointAt 1500 2500) (Some snapshot)
    = {| c_type := None; c_x := 249; c_y := 249;
         c_width := None; c_height := None |} /\
  transformCoordinatesToCanvasQuPathStyle (Some theViewer) None
    (pointAt 10 10) (Some snapshot)
    = {| c_type := None; c_x := 0; c_y := 0;
         c_width := None; c_height := None |}.
Proof.
  split; [vm_compute; reflexivity|].
  split; [vm_compute; reflexivity|].
  split; [intros (_ & H & _); vm_compute in H; apply H; reflexivity|].
  split; [vm_compute; reflexivity|].
  split; [intros (H & _); vm_compute in H; apply H; reflexivity|].
  split; vm_compute; reflexivity.
Qed.

(** C7.  The descriptor assembled at capture time carries no
    downsample: [getCurrentViewportBounds] computes [1 / zoom] and
    returns an object without it, for every viewer.  At zoom 1/2 the
    factor would be 2; the captured descriptor has none, and the
    QuPath-style forward transform, which needs it, hands the image
    point (1200, 2200) back unchanged. *)
Theorem captured_descriptor_lacks_downsample (v : Viewer) :
  let captured :=
    setViewportBounds
      (Some {| vb_x := 1000; vb_y := 2000; vb_width := 500;
               vb_height := 500; vb_downsample := None |}) snapshot in
  vb_downsample <$> getCurrentViewportBounds (Some v) = Some None /\
  match SamApi.getCurrentImageData (Some v) with
  | Some info => vb_downsample <$> viewportBounds info = Some None
  | None => canvasDataURL v = None
  end /\
  1 / getZoom theViewer true == 2 /\
  SamApi.getCurrentImageData (Some theViewer) = Some captured /\
  transformCoordinatesToCanvasQuPathStyle (Some theViewer) (Some captured)
    (pointAt 1200 2200) (Some captured) = pointAt 1200 2200.
Proof.
  split.
  { unfold getCurrentViewportBounds.
    destruct (getBounds v) as [[[bx by_] bw] bh]. reflexivity. }
  split.
  { unfold SamApi.getCurrentImageData, getCurrentViewportBounds.
    destruct (getBounds v) as [[[bx by_] bw] bh].
    destruct (canvasDataURL v); reflexivity. }
  split; [reflexivity|].
  split; vm_compute; reflexivity.
Qed.

End CaptureDescriptor.

Section CandidateSelection.

Import SamApi Scenario Stated.
Local Open Scope Q_scope.





Lemma in_insertFeature (f x : Feature) (l : list Feature) :
  In x (insertFeature f l) <-> x = f \/ In x l.
Proof.
  induction l as [|g l IH]; simpl.
  - intuition.
  - destruct (comparesAfter f g); simpl; [rewrite IH|]; intuition.
Qed.

Lemma in_sortFeatures (x : Feature) (l : list Feature) :
  In x (sortFeatures l) <-> In x l.
Proof.
  induction l as [|a l IH]; simpl; [tauto|].
  rewrite in_insertFeature, IH. intuition.
Qed.








End CandidateSelection.

Section Classifier.

Import AnnotationManager Scenario Stated.

Lemma taggingValues_none (body : list BodyItem) :
  forallb (fun item => negb (purposeIs item "tagging")) body = true ->
  taggingValues body = [].
Proof.
  induction body as [|item rest IH]; simpl; [reflexivity|].
  intros H. apply andb_true_iff in H as [Hitem Hrest].
  apply negb_true_iff in Hitem. rewrite Hitem, andb_false_r.
  apply IH. exact Hrest.
Qed.

(** C9, as stated, fails: the box drawn with the manual rectangle
    tool has no tagging item and matches no fallback step, and its
    tag is ["Manual"], not ["Uncategorized"]. *)
Lemma unmatched_annotation_is_not_uncategorized :
  hasNoTaggingItem drawnBox = true /\
  isAnnotationFromSAMEnhanced "rect" drawnBox = false /\
  getAnnotationTags "rect" drawnBox = ["Manual"%string] /\
  getAnnotationTags "rect" drawnBox <> ["Uncategorized"%string].
Proof.
  repeat split; try reflexivity. discriminate.
Qed.

(** C9, amended.  An annotation that carries no body item marked with
    the tagging purpose and matches none of the fallback steps (id
    prefix, [samGenerated], [samTool], active tool, body text) gets
    the single tag ["Manual"]. *)
Theorem unmatched_annotation_is_manual (currentTool : string)
    (annotation : Annotation) :
  hasNoTaggingItem annotation = true ->
  isAnnotationFromSAMEnhanced currentTool annotation = false ->
  getAnnotationTags currentTool annotation = ["Manual"%string].
Proof.
  unfold hasNoTaggingItem, getAnnotationTags. intros Htag Hsam.
  rewrite Hsam.
  destruct (a_body annotation) as [[|item rest]|]; try reflexivity.
  cbn [default] in Htag.
  rewrite (taggingValues_none (item :: rest) Htag). reflexivity.
Qed.

Lemma unmatched_annotation_is_manual_witness :
  getAnnotationTags "rect" drawnBox = ["Manual"%string].
Proof.
  apply (unmatched_annotation_is_manual "rect" drawnBox); reflexivity.
Defined.

End Classifier.

Section FirstRing.

Import SamApi Scenario Stated.
Local Open Scope Q_scope.

(** C10.  When the selected candidate is a polygon [ring0 :: rest],
    the reverse transform of sam-api.js returns the transformed
    [ring0] alone, and the selector of the committed annotation is the
    SVG text of that one ring: [rest] appears nowhere.  Both
    declarations of [createSVGPathFromWSICoordinates] read the first
    ring only. *)
Theorem only_first_ring_is_committed
    (extract : option Viewer -> Annotation -> option Coords)
    (forward : option Viewer -> option ImageInfo -> Coords -> ImageInfo ->
               Completion (option Coords))
    (createSVGPath : WsiCoordinates -> string)
    (viewer : option Viewer) (win : option ImageInfo)
    (samResult : SamResult) (features : list Feature) (best : Feature)
    (gtype : string) (ring0 : list Position) (rest : list (list Position))
    (original : Annotation) (info : ImageInfo) (vb : ViewportBounds)
    (stamp rnd : string) :
  featuresOf samResult = Some features ->
  bestFeature features = Some best ->
  f_geometry best = Some {| g_type := gtype;
                            g_coordinates := Some (ring0 :: rest) |} ->
  viewportBounds info = Some vb ->
  let firstRing :=
    WsiRings [viewportToWsiCoords ring0 (wsiRegionOf vb) (viewportShapeOf info)] in
  transformCanvasToWSICoordinates (ring0 :: rest) info
    = Normal (Some firstRing) /\
  (exists sam,
     convertSAMResultToAnnotation
       (withSamApiReverse extract forward createSVGPath)
       viewer win samResult original info stamp rnd = Some sam /\
     (a_target sam ≫= t_selector)
       = Some {| s_type := "SvgSelector"; s_value := createSVGPath firstRing |}) /\
  (forall (P : Platform) (r : list (JsNum * JsNum)) (rs : list (list (JsNum * JsNum))),
     createSVGPathFromWSICoordinates P (WsiRings (r :: rs))
       = createSVGPathFromWSICoordinates P (WsiRings [r]) /\
     AnnotationManager.createSVGPathFromWSICoordinates P (WsiRings (r :: rs))
       = AnnotationManager.createSVGPathFromWSICoordinates P (WsiRings [r])).
Proof.
  intros Hf Hbest Hgeo Hvb firstRing.
  assert (Hrev : transformCanvasToWSICoordinates (ring0 :: rest) info
                 = Normal (Some firstRing)).
  { unfold transformCanvasToWSICoordinates. rewrite Hvb. reflexivity. }
  split; [exact Hrev|]. split.
  - unfold convertSAMResultToAnnotation.
    rewrite Hf, Hbest, Hgeo. cbn [g_coordinates withSamApiReverse
      g_transformCanvasToWSICoordinates g_createSVGPathFromWSICoordinates].
    rewrite Hrev. eexists. split; reflexivity.
  - intros P r rs. split; destruct r; reflexivity.
Qed.

(** The same outcome in the other binding.  The reverse transform of
    coordinate-transforms.js maps every ring, and the SVG path of
    annotation-manager.js is written from the first one: the selector
    holds the first ring alone. *)
Lemma first_ring_alone_in_other_binding (P : Platform) (v : Viewer)
    (win : option ImageInfo) (samResult : SamResult) (features : list Feature)
    (best : Feature) (gtype : string) (p : Position) (ps : list Position)
    (rest : list (list Position)) (original : Annotation) (info : ImageInfo)
    (vb : ViewportBounds) (ds : Q) (stamp rnd : string) :
  featuresOf samResult = Some features ->
  bestFeature features = Some best ->
  f_geometry best = Some {| g_type := gtype;
                            g_coordinates := Some ((p :: ps) :: rest) |} ->
  viewportBounds (default info win) = Some vb ->
  vb_downsample vb = Some ds ->
  0 < ds ->
  let tc := CoordinateTransforms.transformCoordinate ds (vb_x vb) (vb_y vb) in
  exists sam,
    convertSAMResultToAnnotation (otherGlobals P) (Some v) win samResult
      original info stamp rnd = Some sam /\
    (a_target sam ≫= t_selector)
      = Some {| s_type := "SvgSelector";
                s_value := AnnotationManager.createSVGPathFromWSICoordinates P
                             (WsiRings [map tc (p :: ps)]) |}.
Proof.
  intros Hf Hbest Hgeo Hvb Hds Hpos tc.
  unfold convertSAMResultToAnnotation. rewrite Hf, Hbest, Hgeo.
  cbn [g_coordinates otherGlobals g_transformCanvasToWSICoordinates
       g_createSVGPathFromWSICoordinates].
  unfold CoordinateTransforms.transformCanvasToWSICoordinates,
    CoordinateTransforms.transformCanvasCoordinatesToWSIQuPathStyle.
  assert (E : match win with Some w => Some w | None => Some info end
              = Some (default info win)) by (destruct win; reflexivity).
  rewrite E, Hvb, Hds, (truthy_pos ds Hpos).
  eexists. split; [reflexivity|]. reflexivity.
Qed.

(** A polygon with a hole: an outer ring and an inner ring. *)
Lemma only_first_ring_is_committed_witness :
  let outer := ring [(0, 0); (20, 0); (20, 20); (0, 20)] in
  let hole := ring [(5, 5); (10, 5); (10, 10)] in
  exists sam,
    convertSAMResultToAnnotation (samApiGlobals platform)
      (Some theViewer) (Some snapshot)
      (SamObject (Some [polygonFeature [outer; hole]]))
      drawnBox snapshot "1700000000000" "k3j9x0a1b" = Some sam /\
    (a_target sam ≫= t_selector)
      = Some {| s_type := "SvgSelector";
                s_value :=
                  createSVGPathFromWSICoordinates platform
                    (WsiRings [viewportToWsiCoords outer
                                 (wsiRegionOf descriptor)
                                 (viewportShapeOf snapshot)]) |}.
Proof.
  intros outer hole.
  exact (proj1 (proj2
    (only_first_ring_is_committed
       (extractCoordinatesFromAnnotation platform)
       (fun _ _ coords imageInfo => transformWSIToCanvasCoordinates coords imageInfo)
       (createSVGPathFromWSICoordinates platform)
       (Some theViewer) (Some snapshot)
       (SamObject (Some [polygonFeature [outer; hole]]))
       [polygonFeature [outer; hole]] (polygonFeature [outer; hole])
       "Polygon" outer [hole] drawnBox snapshot descriptor
       "1700000000000" "k3j9x0a1b"
       eq_refl eq_refl eq_refl eq_refl))).
Defined.

End FirstRing.

Section Stores.

Import AnnotationManager ViewerCore Scenario Stated.







(** What a started run has done to the page. *)
Lemma onCreateAnnotation_started (G : Globals) (a : Annotation) (now : string)
    (pg pg1 : Page) (run : InFlight) :
  onCreateAnnotation G a now pg = (pg1, Some run) ->
  exists captured,
    SamApi.getCurrentImageData (viewer pg) = Some captured /\
    imageInfo run = length (imageInfos pg) /\
    imageInfos pg1 = (imageInfos pg ++ [captured])%list /\
    window_currentImageInfo pg1 = Some (imageInfo run) /\
    annotation run = a /\
    originalAnnotationId run = a_id a /\
    viewer pg1 = viewer pg /\
    currentTool pg1 = currentTool pg /\
    anno pg1 = anno pg /\
    annotations pg1 = annotations pg.
Proof.
  unfold onCreateAnnotation, SamApi.processSAMPrompt_request.
  destruct (startsWith (currentTool pg) "sam-" && samConnected pg && samLiveMode pg);
    [|discriminate].
  destruct (negb (samConnected pg)); [discriminate|].
  destruct (SamApi.getCurrentImageData (viewer pg)) as [captured|]; [|discriminate].
  destruct (g_extractCoordinatesFromAnnotation G _ _) as [coords|]; [|discriminate].
  destruct (g_transformWSIToCanvasCoordinates G _ _ _ _) as [canvasCoords|m];
    [|discriminate].
  destruct (SamApi.samPayload _ _ _) as [payload|m]; [|discriminate].
  intros H. injection H as <- <-.
  exists captured. repeat split.
Qed.

End Stores.

Section FailedRun.

Import AnnotationManager ViewerCore Scenario Stated.



Lemma scenario_run_started :
  onCreateAnnotation (SamApi.samApiGlobals platform) drawnBox "1700000000000" page
    = (waitingPage, Some theRun).
Proof. vm_compute. reflexivity. Qed.




End FailedRun.

Section FrozenDescriptor.

Import CoordinateTransforms ViewerCore Scenario Stated.
Local Open Scope Q_scope.

Lemma getCurrentViewportBounds_some (v : Viewer) :
  exists vb, getCurrentViewportBounds (Some v) = Some vb.
Proof.
  unfold getCurrentViewportBounds.
  destruct (getBounds v) as [[[bx by_] bw] bh]. eexists. reflexivity.
Qed.

(** One user action on a page whose global refers to the snapshot
    behind [ref]: a pan or zoom replaces the descriptor of that
    snapshot by the bounds of the viewport moved to; the other actions
    leave it. *)
Lemma act_descriptor (pg : Page) (action : UserAction) (ref : nat)
    (info : ImageInfo) :
  window_currentImageInfo pg = Some ref ->
  imageInfos pg !! ref = Some info ->
  window_currentImageInfo (act pg action) = Some ref /\
  exists info',
    imageInfos (act pg action) !! ref = Some info' /\
    viewportBounds info' =
      match action with
      | PanZoom moved => getCurrentViewportBounds (Some moved)
      | _ => viewportBounds info
      end.
Proof.
  intros Hwin Hinfo. destruct action as [moved|selected|tool]; cbn [act].
  - unfold animationFinish. cbn [setViewer window_currentImageInfo imageInfos viewer].
    rewrite Hwin, Hinfo.
    destruct (getCurrentViewportBounds_some moved) as [vb Hvb]. rewrite Hvb.
    cbn [setImageInfos window_currentImageInfo imageInfos].
    split; [exact Hwin|].
    eexists. split.
    + apply list_lookup_insert_eq. apply lookup_lt_Some with info. exact Hinfo.
    + reflexivity.
  - split; [exact Hwin|]. exists info. split; [exact Hinfo|reflexivity].
  - split; [exact Hwin|]. exists info. split; [exact Hinfo|reflexivity].
Qed.

Lemma actAll_descriptor (actions : list UserAction) (pg : Page) (ref : nat)
    (info : ImageInfo) :
  window_currentImageInfo pg = Some ref ->
  imageInfos pg !! ref = Some info ->
  window_currentImageInfo (actAll actions pg) = Some ref /\
  descriptorOf (actAll actions pg) ref =
    match lastMove actions with
    | Some moved => getCurrentViewportBounds (Some moved)
    | None => viewportBounds info
    end.
Proof.
  revert pg info. induction actions as [|action rest IH]; intros pg info Hwin Hinfo.
  - split; [exact Hwin|]. unfold descriptorOf. cbn [actAll fold_left lastMove].
    rewrite Hinfo. reflexivity.
  - destruct (act_descriptor pg action ref info Hwin Hinfo)
      as (Hwin' & info' & Hinfo' & Hvb').
    destruct (IH (act pg action) info' Hwin' Hinfo') as [Hw Hd].
    split; [exact Hw|].
    change (actAll (action :: rest) pg) with (actAll rest (act pg action)).
    rewrite Hd. cbn [lastMove].
    destruct (lastMove rest); [reflexivity|].
    rewrite Hvb'. destruct action; reflexivity.
Qed.

(** C6, as stated, fails: the user pans from (1000, 2000) to
    (5000, 6000) while the request is under way; the descriptor of the
    snapshot, (1000, 2000) at capture, is (5000, 6000) when the
    response arrives, and the capture point (50, 50) of the response is
    mapped to the image point (5100, 6100) instead of (1100, 2100). *)
Lemma descriptor_changes_on_pan :
  let G := SamApi.samApiGlobals platform in
  let moved := actAll [PanZoom (viewerAt 5000 6000)] waitingPage in
  onCreateAnnotation G drawnBox "1700000000000" page = (waitingPage, Some theRun) /\
  descriptorOf waitingPage (imageInfo theRun)
    = Some {| vb_x := 1000; vb_y := 2000; vb_width := 500; vb_height := 500;
              vb_downsample := None |} /\
  descriptorOf moved (imageInfo theRun)
    = Some {| vb_x := 5000; vb_y := 6000; vb_width := 500; vb_height := 500;
              vb_downsample := None |} /\
  descriptorOf moved (imageInfo theRun)
    <> descriptorOf waitingPage (imageInfo theRun) /\
  printed (imageInfos waitingPage !! imageInfo theRun ≫=
             fun info => Some (SamApi.transformCanvasToWSICoordinates
                                 [ring [(50, 50); (60, 50); (50, 60)]] info))
    = ["1100,2100"; "1120,2100"; "1100,2120"]%string /\
  printed (imageInfos moved !! imageInfo theRun ≫=
             fun info => Some (SamApi.transformCanvasToWSICoordinates
                                 [ring [(50, 50); (60, 50); (50, 60)]] info))
    = ["5100,6100"; "5120,6100"; "5100,6120"]%string /\
  SamApi.processSAMPrompt_response G moved (imageInfo theRun)
    (tempAnnotation theRun) triangleResponse "1700000000001" "k3j9x0a1b"
    <> SamApi.processSAMPrompt_response G waitingPage (imageInfo theRun)
         (tempAnnotation theRun) triangleResponse "1700000000001" "k3j9x0a1b".
Proof.
  intros G moved.
  split; [exact scenario_run_started|].
  split; [vm_compute; reflexivity|].
  split; [vm_compute; reflexivity|].
  split; [vm_compute; discriminate|].
  split; [vm_compute; reflexivity|].
  split; [vm_compute; reflexivity|].
  vm_compute. discriminate.
Qed.

(** C6, amended.  The descriptor of a snapshot is the one of capture
    time as long as the user does not pan or zoom before the response
    arrives; after a pan or zoom it is the bounds of the viewport last
    moved to.  The global still refers to that snapshot, so both
    declarations of the reverse transform read this descriptor. *)
Theorem descriptor_follows_live_viewport (G : Globals) (a : Annotation)
    (now : string) (pg pg1 : Page) (run : InFlight)
    (actions : list UserAction) :
  onCreateAnnotation G a now pg = (pg1, Some run) ->
  descriptorOf pg1 (imageInfo run) = getCurrentViewportBounds (viewer pg) /\
  descriptorOf (actAll actions pg1) (imageInfo run) =
    match lastMove actions with
    | Some moved => getCurrentViewportBounds (Some moved)
    | None => getCurrentViewportBounds (viewer pg)
    end /\
  currentImageInfoOf (actAll actions pg1)
    = imageInfos (actAll actions pg1) !! imageInfo run.
Proof.
  intros Hcreate.
  destruct (onCreateAnnotation_started _ _ _ _ _ _ Hcreate)
    as (captured & Hcap & Href & Hinfos & Hwin & _).
  assert (Hlook : imageInfos pg1 !! imageInfo run = Some captured).
  { rewrite Hinfos, Href. apply list_lookup_middle. reflexivity. }
  assert (Hbounds : viewportBounds captured = getCurrentViewportBounds (viewer pg)).
  { unfold SamApi.getCurrentImageData in Hcap.
    destruct (viewer pg) as [v|]; [|discriminate].
    destruct (canvasDataURL v); [|discriminate].
    injection Hcap as <-. reflexivity. }
  split.
  { unfold descriptorOf. rewrite Hlook. exact Hbounds. }
  destruct (actAll_descriptor actions pg1 (imageInfo run) captured Hwin Hlook)
    as [Hw Hd].
  split.
  - rewrite Hd, Hbounds. reflexivity.
  - unfold currentImageInfoOf. rewrite Hw. reflexivity.
Qed.

Lemma descriptor_follows_live_viewport_witness :
  descriptorOf
    (actAll [PanZoom (viewerAt 3000 4000); SetActiveTool "rect";
             PanZoom (viewerAt 5000 6000)] waitingPage)
    (imageInfo theRun)
    = getCurrentViewportBounds (Some (viewerAt 5000 6000)).
Proof.
  apply (descriptor_follows_live_viewport (SamApi.samApiGlobals platform)
           drawnBox "1700000000000" page waitingPage theRun
           [PanZoom (viewerAt 3000 4000); SetActiveTool "rect";
            PanZoom (viewerAt 5000 6000)]).
  vm_compute. reflexivity.
Defined.

End FrozenDescriptor.

Section DeletedTarget.

Import AnnotationManager ViewerCore Scenario Stated.





End DeletedTarget.

(* ===================================================================== *)
(** * Further properties of the transforms                                *)
(* ===================================================================== *)

Section QuPathTransforms.

Import CoordinateTransforms Scenario Stated.
Local Open Scope Q_scope.

Lemma pos_neq0 (q : Q) : 0 < q -> ~ q == 0.
Proof. intros H E. rewrite E in H. revert H. apply Qlt_irrefl. Qed.

Lemma clamped_extent (total x w : Q) :
  x <= total - 1 ->
  1 <= Math_max 1 (Math_min (total - x) w) /\
  x + Math_max 1 (Math_min (total - x) w) <= total.
Proof.
  intros Hx. unfold Math_max, Math_min. split; [apply Q.le_max_l|].
  assert (H : Qmax 1 (Qmin (total - x) w) <= total - x).
  { apply Q.max_lub; [lra | apply Q.le_min_l]. }
  lra.
Qed.

(** X1.  A box that goes through the QuPath-style forward transform
    comes out at least one pixel wide and high and inside the canvas:
    its origin plus its extent does not pass the canvas size. *)
Theorem quPath_box_stays_in_canvas (v : Viewer) (win : option ImageInfo)
    (coords : Coords) (info : ImageInfo) (vb : ViewportBounds) (ds w h : Q) :
  viewportBounds (default info win) = Some vb ->
  vb_downsample vb = Some ds ->
  0 < ds ->
  1 <= ii_width info -> 1 <= ii_height info ->
  c_width coords = Some w -> c_height coords = Some h ->
  let r := transformCoordinatesToCanvasQuPathStyle (Some v) win coords (Some info) in
  exists w' h',
    c_width r = Some w' /\ c_height r = Some h' /\
    1 <= w' /\ 1 <= h' /\
    c_x r + w' <= ii_width info /\ c_y r + h' <= ii_height info.
Proof.
  intros Hvb Hds Hpos HW HH Hw Hh r. subst r.
  rewrite (forward_with_downsample v win coords info vb ds Hvb Hds Hpos).
  cbv zeta. rewrite Hw, Hh. cbn [fmap option_fmap option_map c_x c_y c_width c_height].
  eexists _, _. split; [reflexivity|]. split; [reflexivity|].
  assert (Hx : Math_max 0 (Math_min (ii_width info - 1)
            (Math_floor ((fst (if isNormalizedViewportCoordinate coords
                                then viewportToImageCoordinates v (c_x coords, c_y coords)
                                else (c_x coords, c_y coords)) - vb_x vb) / ds)))
          <= ii_width info - 1) by (apply clamp_range; lra).
  assert (Hy : Math_max 0 (Math_min (ii_height info - 1)
            (Math_floor ((snd (if isNormalizedViewportCoordinate coords
                                then viewportToImageCoordinates v (c_x coords, c_y coords)
                                else (c_x coords, c_y coords)) - vb_y vb) / ds)))
          <= ii_height info - 1) by (apply clamp_range; lra).
  destruct (clamped_extent (ii_width info) _ (Math_floor (w / ds)) Hx) as [? ?].
  destruct (clamped_extent (ii_height info) _ (Math_floor (h / ds)) Hy) as [? ?].
  repeat split; assumption.
Qed.

Lemma quPath_box_stays_in_canvas_witness :
  let r := transformCoordinatesToCanvasQuPathStyle (Some theViewer) None
             {| c_type := Some "box"%string; c_x := 1400; c_y := 2400;
                c_width := Some 400; c_height := Some 0 |} (Some snapshot) in
  exists w' h',
    c_width r = Some w' /\ c_height r = Some h' /\
    1 <= w' /\ 1 <= h' /\
    c_x r + w' <= ii_width snapshot /\ c_y r + h' <= ii_height snapshot.
Proof.
  apply (quPath_box_stays_in_canvas theViewer None _ snapshot descriptor 2 400 0);
    try reflexivity; vm_compute; discriminate.
Defined.




Lemma captured_bounds (v : Viewer) (info : ImageInfo) :
  SamApi.getCurrentImageData (Some v) = Some info ->
  exists vb, viewportBounds info = Some vb /\ vb_downsample vb = None.
Proof.
  unfold SamApi.getCurrentImageData, getCurrentViewportBounds.
  destruct (getBounds v) as [[[bx by_] bw] bh].
  destruct (canvasDataURL v); [|discriminate].
  intros H. injection H as <-. eexists. split; reflexivity.
Qed.

(** X3.  With a snapshot as [getCurrentImageData] captures it, the
    QuPath-style transforms do nothing: the forward transform hands its
    argument back unchanged, the reverse transform returns [null], and
    under the binding that reaches them every response is converted to
    [null]. *)
Theorem captured_snapshot_disables_quPath (v : Viewer) (info : ImageInfo) :
  SamApi.getCurrentImageData (Some v) = Some info ->
  (forall coords,
     transformCoordinatesToCanvasQuPathStyle (Some v) (Some info) coords (Some info)
       = coords /\
     transformCoordinatesToCanvasQuPathStyle (Some v) None coords (Some info)
       = coords) /\
  (forall cc,
     transformCanvasCoordinatesToWSIQuPathStyle (Some v) (Some info) cc (Some info)
       = Normal None /\
     transformCanvasCoordinatesToWSIQuPathStyle (Some v) None cc (Some info)
       = Normal None) /\
  (forall P samResult original stamp rnd,
     SamApi.convertSAMResultToAnnotation (SamApi.otherGlobals P) (Some v)
       (Some info) samResult original info stamp rnd = None).
Proof.
  intros Hcap. destruct (captured_bounds v info Hcap) as (vb & Hvb & Hds).
  assert (Hrev : forall cc,
     transformCanvasCoordinatesToWSIQuPathStyle (Some v) (Some info) cc (Some info)
       = Normal None /\
     transformCanvasCoordinatesToWSIQuPathStyle (Some v) None cc (Some info)
       = Normal None).
  { intros cc. unfold transformCanvasCoordinatesToWSIQuPathStyle.
    rewrite Hvb, Hds. destruct cc; split; reflexivity. }
  split; [|split; [exact Hrev|]].
  - intros coords. unfold transformCoordinatesToCanvasQuPathStyle.
    change (default info (Some info)) with info.
    change (default info None) with info.
    rewrite Hvb, Hds. split; reflexivity.
  - intros P samResult original stamp rnd.
    unfold SamApi.convertSAMResultToAnnotation.
    destruct (SamApi.featuresOf samResult) as [features|]; [|reflexivity].
    destruct (SamApi.bestFeature features) as [best|]; [|reflexivity].
    destruct (f_geometry best) as [geometry|]; [|reflexivity].
    destruct (g_coordinates geometry) as [coordinates|]; [|reflexivity].
    cbn [SamApi.otherGlobals g_transformCanvasToWSICoordinates].
    unfold transformCanvasToWSICoordinates.
    rewrite (proj1 (Hrev (Some (CoordRings coordinates)))). reflexivity.
Qed.

Lemma captured_snapshot_disables_quPath_witness :
  transformCoordinatesToCanvasQuPathStyle (Some theViewer) (Some captured)
    (pointAt 1200 2200) (Some captured) = pointAt 1200 2200 /\
  SamApi.convertSAMResultToAnnotation (SamApi.otherGlobals platform)
    (Some theViewer) (Some captured) (SamArray [triangle50]) drawnBox captured
    "1700000000001" "k3j9x0a1b" = None.
Proof.
  pose proof (captured_snapshot_disables_quPath theViewer captured) as H.
  destruct H as (Hf & _ & Hc).
  - vm_compute. reflexivity.
  - split; [apply Hf | apply Hc].
Defined.

End QuPathTransforms.

Section RegionRelativeTransforms.

Import SamApi Scenario Stated.
Local Open Scope Q_scope.







Lemma region_floor_monotone (x w l rw vw : Q) :
  0 < rw -> 0 <= vw -> 0 <= w ->
  Math_floor ((x - l) / rw * vw) <= Math_floor ((x + w - l) / rw * vw).
Proof.
  intros Hr Hv Hw. unfold Math_floor. rewrite <- Zle_Qle.
  apply Qfloor_resp_le.
  assert (E : (x + w - l) / rw * vw == (x - l) / rw * vw + w / rw * vw)
    by (field; apply pos_neq0; assumption).
  rewrite E.
  assert (0 <= w / rw * vw).
  { apply Qmult_le_0_compat; [|exact Hv].
    apply Qle_shift_div_l; [exact Hr | lra]. }
  lra.
Qed.

(** X6.  For a box drawn with the rectangle tool the request carries
    [bbox = [x0, y0, x1, y1]] where (x0, y0) and (x1, y1) are the
    region-relative images of the two corners of the box, and the box is
    not turned over: x0 <= x1 and y0 <= y1. *)
Theorem rect_payload_carries_both_corners (coords : Coords)
    (imageInfo : ImageInfo) (vb : ViewportBounds) (w h : Q) :
  viewportBounds imageInfo = Some vb ->
  c_type coords = Some "box"%string ->
  c_width coords = Some w -> c_height coords = Some h ->
  0 < vb_width vb -> 0 < vb_height vb ->
  0 <= ii_width imageInfo -> 0 <= ii_height imageInfo ->
  0 <= w -> 0 <= h ->
  let topLeft :=
    wsiToViewportCoords (c_x coords, c_y coords)
      (wsiRegionOf vb) (viewportShapeOf imageInfo) in
  let bottomRight :=
    wsiToViewportCoords (c_x coords + w, c_y coords + h)
      (wsiRegionOf vb) (viewportShapeOf imageInfo) in
  exists canvasCoords payload x1 y1,
    transformWSIToCanvasCoordinates coords imageInfo = Normal (Some canvasCoords) /\
    samPayload "sam-rect" imageInfo (Some canvasCoords) = Normal payload /\
    p_bbox payload = Some (Fin (fst topLeft), Fin (snd topLeft), Fin x1, Fin y1) /\
    p_point_coords payload = None /\
    x1 == fst bottomRight /\ y1 == snd bottomRight /\
    fst topLeft <= x1 /\ snd topLeft <= y1.
Proof.
  intros Hvb Htype Hw Hh Hrw Hrh Hvw Hvh Hw0 Hh0 topLeft bottomRight.
  unfold transformWSIToCanvasCoordinates. rewrite Hvb, Htype, Hw, Hh.
  cbn [String.eqb Ascii.eqb Bool.eqb andb].
  eexists _, _, _, _. split; [reflexivity|].
  split; [reflexivity|]. cbn [p_bbox p_point_coords c_x c_y c_width c_height].
  split; [reflexivity|]. split; [reflexivity|].
  fold topLeft bottomRight.
  assert (Hx : fst topLeft <= fst bottomRight).
  { apply (region_floor_monotone (c_x coords) w (vb_x vb) (vb_width vb)
             (ii_width imageInfo)); assumption. }
  assert (Hy : snd topLeft <= snd bottomRight).
  { apply (region_floor_monotone (c_y coords) h (vb_y vb) (vb_height vb)
             (ii_height imageInfo)); assumption. }
  repeat split; lra.
Qed.

Lemma rect_payload_carries_both_corners_witness :
  exists canvasCoords payload x1 y1,
    transformWSIToCanvasCoordinates
      {| c_type := Some "box"%string; c_x := 1200; c_y := 2200;
         c_width := Some 40; c_height := Some 40 |} snapshot
      = Normal (Some canvasCoords) /\
    samPayload "sam-rect" snapshot (Some canvasCoords) = Normal payload /\
    p_bbox payload = Some (Fin 100, Fin 100, Fin x1, Fin y1) /\
    x1 == 120 /\ y1 == 120.
Proof.
  destruct (rect_payload_carries_both_corners
              {| c_type := Some "box"%string; c_x := 1200; c_y := 2200;
                 c_width := Some 40; c_height := Some 40 |}
              snapshot descriptor 40 40)
    as (c & p & x1 & y1 & H1 & H2 & H3 & _ & H5 & H6 & _);
    try reflexivity; try (vm_compute; discriminate).
  exists c, p, x1, y1. repeat split; assumption.
Defined.

End RegionRelativeTransforms.

(* ===================================================================== *)
(** * Further properties of the candidate selection and the conversion    *)
(* ===================================================================== *)

Section Conversion.

Import SamApi AnnotationManager Scenario Stated.
Local Open Scope Q_scope.

Lemma areaLe_not_after (a b : Feature) :
  areaLe (calculatedArea a) (calculatedArea b) -> comparesAfter a b = false.
Proof.
  unfold comparesAfter.
  destruct (calculatedArea a) as [x|], (calculatedArea b) as [y|];
    simpl; try tauto; try reflexivity.
  intros H. apply Qle_bool_iff in H. rewrite H. reflexivity.
Qed.

(** X7.  Ties go to the earlier candidate: when the first feature of
    the response is of least area (others may have the same area), it is
    the one selected. *)
Theorem first_least_candidate_wins (first : Feature) (others : list Feature) :
  (forall g, In g others -> areaLe (calculatedArea first) (calculatedArea g)) ->
  bestFeature (first :: others) = Some first.
Proof.
  intros Hleast. unfold bestFeature. cbn [sortFeatures fold_right].
  fold (sortFeatures others).
  destruct (sortFeatures others) as [|g sorted] eqn:E; [reflexivity|].
  cbn [insertFeature].
  assert (Hg : In g others).
  { apply in_sortFeatures. rewrite E. left. reflexivity. }
  rewrite (areaLe_not_after first g (Hleast g Hg)). reflexivity.
Qed.

Lemma first_least_candidate_wins_witness :
  bestFeature [triangle50; square100; triangle50; square400] = Some triangle50.
Proof.
  apply first_least_candidate_wins.
  intros g [<-|[<-|[<-|[]]]]; vm_compute; discriminate.
Defined.

Lemma featureOfMask_some (mask feature : Feature) :
  featureOfMask mask = Some feature ->
  exists geometry properties q m i,
    f_geometry mask = Some geometry /\
    f_properties mask = Some properties /\
    f_geometry feature = Some geometry /\
    f_properties feature
      = Some {| quality := Some q; sam_model := Some m; object_idx := Some i |} /\
    ~ q == 0 /\ m <> EmptyString.
Proof.
  unfold featureOfMask.
  destruct (f_geometry mask) as [geometry|]; [|discriminate].
  destruct (f_properties mask) as [properties|]; [|discriminate].
  intros H. injection H as <-. cbn [f_geometry f_properties].
  assert (Hq : exists q,
            match quality properties with
            | Some q => if truthy q then Some q else Some (1 # 2)
            | None => Some (1 # 2)
            end = Some q /\ ~ q == 0).
  { destruct (quality properties) as [q|].
    - unfold truthy. destruct (Qeq_bool q 0) eqn:E; cbn [negb].
      + exists (1 # 2). split; [reflexivity | discriminate].
      + exists q. split; [reflexivity|]. apply Qeq_bool_neq. exact E.
    - exists (1 # 2). split; [reflexivity | discriminate]. }
  assert (Hm : exists m,
            match sam_model properties with
            | Some m => if truthyString m then Some m else Some "mobile-sam"%string
            | None => Some "mobile-sam"%string
            end = Some m /\ m <> EmptyString).
  { destruct (sam_model properties) as [[|c m]|].
    - eexists. split; [reflexivity | discriminate].
    - eexists. split; [reflexivity | discriminate].
    - eexists. split; [reflexivity | discriminate]. }
  assert (Hi : exists i,
            match object_idx properties with
            | Some i => if truthy i then Some i else Some 0
            | None => Some 0
            end = Some i).
  { destruct (object_idx properties) as [i|]; [destruct (truthy i)|]; eexists; reflexivity. }
  destruct Hq as (q & -> & Hq), Hm as (m & -> & Hm), Hi as (i & ->).
  exists geometry, properties, q, m, i. repeat split; assumption.
Qed.

Lemma in_featuresOfMasks (masks : list Feature) (feature : Feature) :
  In feature (featuresOfMasks masks) <->
  exists mask, In mask masks /\ featureOfMask mask = Some feature.
Proof.
  induction masks as [|mask rest IH]; cbn [featuresOfMasks].
  - split; [intros [] | intros (m & [] & _)].
  - destruct (featureOfMask mask) as [f|] eqn:E.
    + split.
      * intros [<-|H]; [exists mask; split; [left; reflexivity | exact E]|].
        apply IH in H as (m & Hm & Hf). exists m. split; [right; exact Hm | exact Hf].
      * intros (m & [<-|Hm] & Hf).
        -- left. congruence.
        -- right. apply IH. exists m. split; assumption.
    + rewrite IH. split.
      * intros (m & Hm & Hf). exists m. split; [right; exact Hm | exact Hf].
      * intros (m & [<-|Hm] & Hf); [congruence|]. exists m. split; assumption.
Qed.

(** X8.  The array format of the response is normalised without
    touching the geometry: every feature kept comes from a mask that
    has a geometry and properties, carries that geometry (so its area is
    the mask's), and has all three properties defined, with a quality
    that is not zero and a model name that is not empty; a response none
    of whose masks has both is converted to [null]. *)
Theorem masks_are_normalised (masks : list Feature) :
  (forall feature, In feature (featuresOfMasks masks) ->
     exists mask geometry q m i,
       In mask masks /\
       f_geometry mask = Some geometry /\
       f_geometry feature = Some geometry /\
       calculatedArea feature = calculatedArea mask /\
       f_properties feature
         = Some {| quality := Some q; sam_model := Some m; object_idx := Some i |} /\
       ~ q == 0 /\ m <> EmptyString) /\
  ((forall mask, In mask masks ->
      f_geometry mask = None \/ f_properties mask = None) ->
   forall G viewer win original info stamp rnd,
     convertSAMResultToAnnotation G viewer win (SamArray masks)
       original info stamp rnd = None).
Proof.
  split.
  - intros feature Hin. apply in_featuresOfMasks in Hin as (mask & Hmask & Hf).
    destruct (featureOfMask_some mask feature Hf)
      as (geometry & properties & q & m & i & Hg & _ & Hg' & Hp & Hq & Hm).
    exists mask, geometry, q, m, i.
    split; [exact Hmask|]. split; [exact Hg|]. split; [exact Hg'|].
    split; [unfold calculatedArea; rewrite Hg, Hg'; reflexivity|].
    split; [exact Hp|]. split; assumption.
  - intros Hnone G viewer win original info stamp rnd.
    assert (E : featuresOfMasks masks = []).
    { induction masks as [|mask rest IH]; [reflexivity|].
      cbn [featuresOfMasks].
      assert (Hm : featureOfMask mask = None).
      { unfold featureOfMask.
        destruct (Hnone mask (or_introl eq_refl)) as [-> | ->];
          [reflexivity | destruct (f_geometry mask); reflexivity]. }
      rewrite Hm. apply IH. intros m Hin. apply Hnone. right. exact Hin. }
    unfold convertSAMResultToAnnotation. cbn [featuresOf]. rewrite E. reflexivity.
Qed.

Lemma masks_are_normalised_witness :
  convertSAMResultToAnnotation (samApiGlobals platform) (Some theViewer)
    (Some snapshot)
    (SamArray [ {| f_geometry := f_geometry triangle50; f_properties := None |};
                {| f_geometry := None; f_properties := f_properties triangle50 |} ])
    drawnBox snapshot "1700000000001" "k3j9x0a1b" = None.
Proof.
  apply (proj2 (masks_are_normalised _)).
  intros mask [<-|[<-|[]]]; [right | left]; reflexivity.
Defined.

(** X9.  Whatever the response, an annotation that the conversion
    returns has an id that starts with [sam-], an [SvgSelector], the one
    body item [Annotation], and the source of the prompt's target; it is
    a SAM annotation for both detectors and is tagged ["SAM"] whatever
    tool is active. *)
Theorem converted_annotation_is_SAM (G : Globals) (viewer : option Viewer)
    (win : option ImageInfo) (samResult : SamResult) (original : Annotation)
    (info : ImageInfo) (stamp rnd : string) (sam : Annotation) :
  convertSAMResultToAnnotation G viewer win samResult original info stamp rnd
    = Some sam ->
  a_id sam = ("sam-" ++ stamp ++ "-" ++ rnd)%string /\
  (s_type <$> (a_target sam ≫= t_selector)) = Some "SvgSelector"%string /\
  (a_target sam ≫= t_source) = (a_target original ≫= t_source) /\
  a_body sam = Some [ {| b_type := Some "TextualBody"%string;
                         b_purpose := None;
                         b_value := Some "Annotation"%string |} ] /\
  isAnnotationFromSAM sam = true /\
  forall currentTool,
    isAnnotationFromSAMEnhanced currentTool sam = true /\
    getAnnotationTags currentTool sam = ["SAM"%string].
Proof.
  unfold convertSAMResultToAnnotation.
  destruct (featuresOf samResult) as [features|]; [|discriminate].
  destruct (bestFeature features) as [best|]; [|discriminate].
  destruct (f_geometry best) as [geometry|]; [|discriminate].
  destruct (g_coordinates geometry) as [coordinates|]; [|discriminate].
  destruct (g_transformCanvasToWSICoordinates G _ _ _ _) as [[wsi|]|m];
    try discriminate.
  intros H. injection H as <-.
  split; [reflexivity|]. split; [reflexivity|].
  split; [destruct (a_target original); reflexivity|].
  assert (Hid : forall t, startsWith ("sam-" ++ t) "sam-" = true).
  { intros t. unfold startsWith. simpl. destruct t; reflexivity. }
  assert (Hsam : isAnnotationFromSAM
                   {| a_id := ("sam-" ++ stamp ++ "-" ++ rnd)%string;
                      a_target := None; a_selector := None; a_body := None;
                      a_samGenerated := false; a_samTool := None |} = true).
  { unfold isAnnotationFromSAM. cbn [a_id]. rewrite Hid. reflexivity. }
  split; [reflexivity|]. split; [exact Hsam|].
  intros currentTool.
  assert (He : isAnnotationFromSAMEnhanced currentTool
                 {| a_id := ("sam-" ++ stamp ++ "-" ++ rnd)%string;
                    a_target :=
                      Some {| t_source :=
                                match a_target original with
                                | Some target => t_source target
                                | None => None
                                end;
                              t_selector :=
                                Some {| s_type := "SvgSelector";
                                        s_value :=
                                          g_createSVGPathFromWSICoordinates G wsi |} |};
                    a_selector := a_selector original;
                    a_body :=
                      Some [ {| b_type := Some "TextualBody"%string;
                                b_purpose := None;
                                b_value := Some "Annotation"%string |} ];
                    a_samGenerated := a_samGenerated original;
                    a_samTool := a_samTool original |} = true).
  { unfold isAnnotationFromSAMEnhanced. cbn [a_id]. rewrite Hid. reflexivity. }
  split; [exact He|].
  unfold getAnnotationTags. rewrite He. reflexivity.
Qed.

Lemma converted_annotation_is_SAM_witness :
  exists sam,
    convertSAMResultToAnnotation (samApiGlobals platform) (Some theViewer)
      (Some snapshot) (SamArray [square100; triangle50]) drawnBox snapshot
      "1700000000001" "k3j9x0a1b" = Some sam /\
    getAnnotationTags "rect" sam = ["SAM"%string].
Proof.
  eexists. split; [vm_compute; reflexivity|].
  eapply (converted_annotation_is_SAM (samApiGlobals platform) (Some theViewer)
            (Some snapshot) (SamArray [square100; triangle50]) drawnBox snapshot
            "1700000000001" "k3j9x0a1b").
  vm_compute. reflexivity.
Defined.

End Conversion.

(* ===================================================================== *)
(** * Further properties of the classifier and of the tag storage         *)
(* ===================================================================== *)

Section TagStorage.

Import AnnotationManager AnnotationLists ViewerCore Scenario Stated.

Lemma taggingValues_in (body : list BodyItem) (tag : string) :
  In tag (taggingValues body) <->
  exists item value,
    In item body /\ b_value item = Some value /\
    hasText item = true /\ purposeIs item "tagging" = true /\
    tag = trim value.
Proof.
  induction body as [|item rest IH]; cbn [taggingValues].
  - split; [intros [] | intros (i & v & [] & _)].
  - destruct (hasText item && purposeIs item "tagging") eqn:E.
    + apply andb_true_iff in E as [Ht Hp]. split.
      * intros [<-|H].
        -- unfold hasText in Ht. destruct (b_value item) as [v|] eqn:Ev; [|discriminate].
           exists item, v. cbn [default]. unfold hasText. rewrite Ev.
           repeat split; try assumption. left. reflexivity.
        -- apply IH in H as (i & v & Hi & Hv).
           exists i, v. split; [right; exact Hi | exact Hv].
      * intros (i & v & [<-|Hi] & Hv & Hrest).
        -- left. rewrite Hv. cbn [default]. symmetry. apply Hrest.
        -- right. apply IH. exists i, v. split; [exact Hi|]. split; assumption.
    + rewrite IH. split.
      * intros (i & v & Hi & Hv). exists i, v. split; [right; exact Hi | exact Hv].
      * intros (i & v & [<-|Hi] & Hv & Ht & Hp & Htag).
        -- rewrite Ht, Hp in E. discriminate.
        -- exists i, v. repeat split; assumption.
Qed.


(** X11.  Explicit tags win over the SAM detection: when some body item
    with text has the tagging purpose, the tags are exactly the trimmed
    values of those items, whatever the id, the flags and the active
    tool. *)
Theorem explicit_tags_override_detection (currentTool : string)
    (annotation : Annotation) (body : list BodyItem) (item : BodyItem)
    (value : string) :
  a_body annotation = Some body ->
  In item body ->
  b_value item = Some value ->
  hasText item = true ->
  purposeIs item "tagging" = true ->
  getAnnotationTags currentTool annotation = taggingValues body /\
  In (trim value) (getAnnotationTags currentTool annotation) /\
  forall otherTool,
    getAnnotationTags otherTool annotation
      = getAnnotationTags currentTool annotation.
Proof.
  intros Hbody Hin Hv Ht Hp.
  assert (Htag : In (trim value) (taggingValues body)).
  { apply taggingValues_in. exists item, value. repeat split; assumption. }
  assert (E : forall tool, getAnnotationTags tool annotation = taggingValues body).
  { intros tool. unfold getAnnotationTags. rewrite Hbody.
    destruct body as [|i rest]; [destruct Hin|].
    destruct (taggingValues (i :: rest)); [destruct Htag | reflexivity]. }
  split; [apply E|]. split; [rewrite E; exact Htag|].
  intros otherTool. rewrite !E. reflexivity.
Qed.

Lemma explicit_tags_override_detection_witness :
  getAnnotationTags "sam-rect" Cases.taggedSamAnnotation = ["Tumor"%string].
Proof.
  apply (explicit_tags_override_detection "sam-rect" Cases.taggedSamAnnotation
           [Cases.tumorTag] Cases.tumorTag "  Tumor "); try reflexivity.
  left. reflexivity.
Defined.



Lemma keepOthers_in (id : string) (l : list Annotation) (b : Annotation) :
  In b (keepOthers id l) <-> In b l /\ a_id b <> id.
Proof.
  unfold keepOthers. rewrite filter_In.
  rewrite negb_true_iff, String.eqb_neq. reflexivity.
Qed.

Lemma keepOthers_twice (id : string) (l : list Annotation) :
  keepOthers id (keepOthers id l) = keepOthers id l.
Proof.
  unfold keepOthers. induction l as [|x l IH]; [reflexivity|].
  cbn [List.filter]. destruct (negb (a_id x =? id)%string) eqn:E.
  - cbn [List.filter]. rewrite E, IH. reflexivity.
  - exact IH.
Qed.

Lemma removeAll_lookup (id : string) (tags : list string)
    (store : gmap string (list Annotation)) (tag : string) :
  fold_left (fun annotations tag =>
               match annotations !! tag with
               | Some l => <[tag := keepOthers id l]> annotations
               | None => annotations
               end) tags store !! tag
  = if in_dec string_dec tag tags then keepOthers id <$> store !! tag
    else store !! tag.
Proof.
  revert store. induction tags as [|t tags IH]; intros store; [reflexivity|].
  cbn [fold_left]. rewrite IH.
  assert (Hstep : match store !! t with
                  | Some l => <[t := keepOthers id l]> store
                  | None => store
                  end !! tag
                  = if string_dec t tag then keepOthers id <$> store !! tag
                    else store !! tag).
  { destruct (string_dec t tag) as [->|Hne].
    - destruct (store !! tag) as [l|] eqn:E.
      + rewrite lookup_insert_eq. reflexivity.
      + rewrite E. reflexivity.
    - destruct (store !! t); [rewrite lookup_insert_ne by exact Hne|]; reflexivity. }
  rewrite Hstep.
  destruct (in_dec string_dec tag tags) as [Hin|Hnin];
    destruct (in_dec string_dec tag (t :: tags)) as [Hin'|Hnin'];
    destruct (string_dec t tag) as [Heq|Hne];
    try reflexivity;
    try (exfalso; cbn [In] in *; intuition congruence).
  destruct (store !! tag); cbn; [rewrite keepOthers_twice|]; reflexivity.
Qed.



Lemma default_tag (currentTool : string) (annotation : Annotation) :
  hasNoTaggingItem annotation = true ->
  getAnnotationTags currentTool annotation
    = [if isAnnotationFromSAMEnhanced currentTool annotation
       then "SAM"%string else "Manual"%string].
Proof.
  unfold hasNoTaggingItem, getAnnotationTags. intros Htag.
  destruct (a_body annotation) as [[|item rest]|]; try reflexivity.
  cbn [default] in Htag.
  rewrite (taggingValues_none (item :: rest) Htag). reflexivity.
Qed.

(** X14.  Deleting looks in the folder the classifier names now, not in
    the one the annotation was filed in: an untagged annotation that was
    added while a SAM tool was active and is deleted from the list once
    a manual tool is active leaves the viewer but stays in the tag
    storage under ["SAM"]. *)
Theorem delete_misses_after_tool_change (annotation : Annotation) (pg : Page) :
  hasNoTaggingItem annotation = true ->
  isAnnotationFromSAMEnhanced (currentTool pg) annotation = false ->
  listedUnder "SAM" annotation (annotations pg) ->
  let pg' := deleteAnnotation annotation pg in
  ~ heldByAnno (a_id annotation) pg' /\
  annotations pg' !! "SAM"%string = annotations pg !! "SAM"%string /\
  listedUnder "SAM" annotation (annotations pg').
Proof.
  intros Htag Hsam Hlisted pg'.
  assert (E : annotations pg' !! "SAM"%string = annotations pg !! "SAM"%string).
  { unfold pg', deleteAnnotation. cbn [setAnnotations setAnno annotations currentTool].
    unfold removeAnnotationFromList. rewrite removeAll_lookup.
    rewrite (default_tag _ _ Htag), Hsam.
    destruct (in_dec string_dec "SAM"%string ["Manual"%string]) as [[H|[]]|_];
      [discriminate H | reflexivity]. }
  split; [|split; [exact E|]].
  - intros (a & Hin & Hid). unfold pg', deleteAnnotation in Hin.
    cbn [setAnnotations setAnno anno] in Hin.
    apply keepOthers_in in Hin as [_ Hne]. contradiction.
  - destruct Hlisted as (l & Hl & Hin). exists l. split; [|exact Hin].
    rewrite E. exact Hl.
Qed.

Lemma delete_misses_after_tool_change_witness :
  let filed := setActiveTool "rect" (keepOriginal drawnBox waitingPage) in
  listedUnder "SAM" drawnBox (annotations (deleteAnnotation drawnBox filed)) /\
  ~ heldByAnno (a_id drawnBox) (deleteAnnotation drawnBox filed).
Proof.
  intros filed.
  destruct (delete_misses_after_tool_change drawnBox filed) as (H1 & _ & H3).
  - reflexivity.
  - reflexivity.
  - exists [drawnBox]. split; [vm_compute; reflexivity | left; reflexivity].
  - split; assumption.
Defined.

End TagStorage.

(* ===================================================================== *)
(** * Further properties of the createAnnotation handler                  *)
(* ===================================================================== *)

Section Handler.

Import AnnotationManager AnnotationLists ViewerCore Scenario Stated.

(** X15.  A successful run swaps the two annotations on the viewer:
    afterwards Annotorious does not hold the id of the drawn annotation,
    holds the replacement, and holds the annotations it held before
    under other ids; what the user typed into the popup of the drawn
    annotation is carried over, so that tags typed there decide where
    the replacement is filed. *)
Theorem replacement_swaps_annotations (drawn : Annotation) (sam : Annotation)
    (pg : Page) :
  a_id sam <> a_id drawn ->
  let pg' := fst (replaceAnnotation drawn (a_id drawn) sam pg) in
  let committed := snd (replaceAnnotation drawn (a_id drawn) sam pg) in
  ~ heldByAnno (a_id drawn) pg' /\
  (forall b, In b (anno pg') <->
             b = committed \/
             (In b (anno pg) /\ a_id b <> a_id drawn /\ a_id b <> a_id sam)) /\
  (forall item rest, a_body drawn = Some (item :: rest) ->
     a_body committed = a_body drawn /\
     forall tool, taggingValues (item :: rest) <> [] ->
       getAnnotationTags tool committed = getAnnotationTags tool drawn) /\
  (a_body drawn = None \/ a_body drawn = Some [] -> committed = sam).
Proof.
  intros Hid pg' committed.
  assert (Hcid : a_id committed = a_id sam).
  { unfold committed, replaceAnnotation.
    destruct (a_body drawn) as [[|item rest]|]; reflexivity. }
  assert (Hanno : anno pg' = (keepOthers (a_id committed)
                                (keepOthers (a_id drawn) (anno pg)) ++ [committed])%list).
  { reflexivity. }
  assert (Hin : forall b, In b (anno pg') <->
             b = committed \/
             (In b (anno pg) /\ a_id b <> a_id drawn /\ a_id b <> a_id sam)).
  { intros b. rewrite Hanno, in_app_iff, keepOthers_in, keepOthers_in, Hcid.
    cbn [In]. intuition. }
  split; [|split; [exact Hin|split]].
  - intros (b & Hb & Hbid). apply Hin in Hb as [->|(_ & Hne & _)].
    + rewrite Hcid in Hbid. contradiction.
    + contradiction.
  - intros item rest Hbody.
    assert (Hc : a_body committed = a_body drawn).
    { unfold committed, replaceAnnotation. rewrite Hbody. reflexivity. }
    split; [exact Hc|].
    intros tool Htags. unfold getAnnotationTags. rewrite Hc, Hbody.
    destruct (taggingValues (item :: rest)); [contradiction | reflexivity].
  - intros [Hbody|Hbody]; unfold committed, replaceAnnotation; rewrite Hbody;
      reflexivity.
Qed.

Lemma replacement_swaps_annotations_witness :
  let swapped := replaceAnnotation Cases.describedBox (a_id Cases.describedBox)
                   Cases.taggedSamAnnotation waitingPage in
  ~ heldByAnno (a_id Cases.describedBox) (fst swapped) /\
  In (snd swapped) (anno (fst swapped)).
Proof.
  intros swapped.
  destruct (replacement_swaps_annotations Cases.describedBox
              Cases.taggedSamAnnotation waitingPage) as (Hgone & Hheld & _).
  - discriminate.
  - split; [exact Hgone | apply Hheld; left; reflexivity].
Defined.

(** X16.  A request is under way only when a tool whose name starts
    with [sam-] is active, the service is connected and live mode is on,
    and the capture succeeded; the handler has then appended exactly one
    snapshot, made the global refer to it, and has not yet touched the
    viewer's annotations or the tag storage.  Otherwise the drawn
    annotation is added to the tag storage at once and nothing is
    captured. *)
Theorem request_is_gated (G : Globals) (a : Annotation) (now : string)
    (pg : Page) :
  (forall pg1 run,
     onCreateAnnotation G a now pg = (pg1, Some run) ->
     startsWith (currentTool pg) "sam-" = true /\
     samConnected pg = true /\ samLiveMode pg = true /\
     (exists captured,
        SamApi.getCurrentImageData (viewer pg) = Some captured /\
        imageInfos pg1 = (imageInfos pg ++ [captured])%list) /\
     window_currentImageInfo pg1 = Some (length (imageInfos pg)) /\
     anno pg1 = anno pg /\ annotations pg1 = annotations pg) /\
  (startsWith (currentTool pg) "sam-" && samConnected pg && samLiveMode pg = false ->
     onCreateAnnotation G a now pg = (ensureAddAnnotation a pg, None) /\
     imageInfos (ensureAddAnnotation a pg) = imageInfos pg /\
     window_currentImageInfo (ensureAddAnnotation a pg)
       = window_currentImageInfo pg).
Proof.
  split.
  - intros pg1 run Hcreate.
    destruct (onCreateAnnotation_started G a now pg pg1 run Hcreate)
      as (captured & Hcap & Href & Hinfos & Hwin & _ & _ & _ & _ & Hanno & Hstore).
    assert (Hgate : startsWith (currentTool pg) "sam-" && samConnected pg
                    && samLiveMode pg = true).
    { unfold onCreateAnnotation in Hcreate.
      destruct (startsWith (currentTool pg) "sam-" && samConnected pg
                && samLiveMode pg); [reflexivity | discriminate]. }
    apply andb_true_iff in Hgate as [Hgate Hlive].
    apply andb_true_iff in Hgate as [Htool Hconn].
    split; [exact Htool|]. split; [exact Hconn|]. split; [exact Hlive|].
    split; [exists captured; split; assumption|].
    split; [rewrite Hwin, Href; reflexivity|].
    split; [exact Hanno|exact Hstore].
  - intros Hgate. unfold onCreateAnnotation. rewrite Hgate.
    repeat split.
Qed.

Lemma request_is_gated_witness :
  onCreateAnnotation (SamApi.samApiGlobals platform) drawnBox "1700000000000"
    (setCurrentTool "rect" page)
  = (ensureAddAnnotation drawnBox (setCurrentTool "rect" page), None).
Proof.
  apply (request_is_gated (SamApi.samApiGlobals platform) drawnBox
           "1700000000000" (setCurrentTool "rect" page)).
  vm_compute. reflexivity.
Defined.

End Handler.

(* ===================================================================== *)
(** * Snapshots while a request is under way                              *)
(* ===================================================================== *)

Section Snapshots.

Import CoordinateTransforms ViewerCore Scenario Stated.

Lemma act_window (pg : Page) (action : UserAction) :
  window_currentImageInfo (act pg action) = window_currentImageInfo pg.
Proof.
  destruct action as [moved|selected|tool]; cbn [act]; try reflexivity.
  unfold animationFinish. cbn [setViewer window_currentImageInfo imageInfos viewer].
  destruct (window_currentImageInfo pg) as [r|] eqn:Hwin; [|exact Hwin].
  destruct (imageInfos pg !! r); [|exact Hwin].
  destruct (getCurrentViewportBounds (Some moved)); exact Hwin.
Qed.

Lemma act_snapshot (pg : Page) (action : UserAction) (ref : nat)
    (info : ImageInfo) :
  imageInfos pg !! ref = Some info ->
  exists info',
    imageInfos (act pg action) !! ref = Some info' /\
    imageData info' = imageData info /\
    ii_width info' = ii_width info /\
    ii_height info' = ii_height info /\
    (window_currentImageInfo pg <> Some ref -> info' = info).
Proof.
  intros Hinfo.
  destruct action as [moved|selected|tool]; cbn [act];
    try (exists info; repeat split; exact Hinfo).
  unfold animationFinish. cbn [setViewer window_currentImageInfo imageInfos viewer].
  destruct (window_currentImageInfo pg) as [r|] eqn:Hwin;
    [|exists info; repeat split; exact Hinfo].
  destruct (imageInfos pg !! r) as [current|] eqn:Hcur;
    [|exists info; repeat split; exact Hinfo].
  destruct (getCurrentViewportBounds (Some moved)) as [vb|];
    [|exists info; repeat split; exact Hinfo].
  cbn [setImageInfos imageInfos].
  destruct (Nat.eq_dec r ref) as [->|Hne].
  - rewrite Hinfo in Hcur. injection Hcur as <-.
    exists (setViewportBounds (Some vb) info). split.
    + apply list_lookup_insert_eq. apply lookup_lt_Some with info. exact Hinfo.
    + repeat split. intros Hno. contradiction Hno. reflexivity.
  - exists info. split.
    + rewrite list_lookup_insert_ne; [exact Hinfo | exact Hne].
    + repeat split.
Qed.

Lemma actAll_snapshot (actions : list UserAction) (pg : Page) (ref : nat)
    (info : ImageInfo) :
  imageInfos pg !! ref = Some info ->
  exists info',
    imageInfos (actAll actions pg) !! ref = Some info' /\
    imageData info' = imageData info /\
    ii_width info' = ii_width info /\
    ii_height info' = ii_height info /\
    (window_currentImageInfo pg <> Some ref -> info' = info).
Proof.
  revert pg info. induction actions as [|action actions IH]; intros pg info Hinfo.
  - exists info. repeat split. exact Hinfo.
  - destruct (act_snapshot pg action ref info Hinfo)
      as (mid & Hmid & Hd & Hw & Hh & Hsame).
    destruct (IH (act pg action) mid Hmid) as (info' & Hlast & Hd' & Hw' & Hh' & Hsame').
    exists info'. split; [exact Hlast|].
    split; [congruence|]. split; [congruence|]. split; [congruence|].
    intros Hno. rewrite Hsame', Hsame; [reflexivity | exact Hno |].
    rewrite act_window. exact Hno.
Qed.

(** X17.  Whatever the user does while a request is under way (pan and
    zoom, the Delete key, a change of tool), every snapshot keeps its
    raster and its canvas size; a snapshot that [window.currentImageInfo]
    does not refer to is not changed at all.  With C6 this means that
    only the descriptor of the latest snapshot follows the viewport,
    while its raster stays the one of capture time. *)
Theorem user_actions_keep_the_raster (actions : list UserAction) (pg : Page)
    (ref : nat) (info : ImageInfo) :
  imageInfos pg !! ref = Some info ->
  exists info',
    imageInfos (actAll actions pg) !! ref = Some info' /\
    imageData info' = imageData info /\
    ii_width info' = ii_width info /\
    ii_height info' = ii_height info /\
    (window_currentImageInfo pg <> Some ref -> info' = info).
Proof.
  apply actAll_snapshot.
Qed.

Lemma user_actions_keep_the_raster_witness :
  exists info',
    imageInfos (actAll [PanZoom (viewerAt 3000 4000); DeleteKey drawnBox]
                  waitingPage) !! imageInfo theRun = Some info' /\
    imageData info' = imageData captured /\
    ii_width info' = ii_width captured /\
    ii_height info' = ii_height captured /\
    (window_currentImageInfo waitingPage <> Some (imageInfo theRun) ->
     info' = captured).
Proof.
  apply (user_actions_keep_the_raster
           [PanZoom (viewerAt 3000 4000); DeleteKey drawnBox] waitingPage
           (imageInfo theRun) captured).
  vm_compute. reflexivity.
Defined.

(** X18.  Once a later annotation has started a request of its own, the
    snapshots of the earlier requests are frozen: the global refers to
    the new snapshot, so no later pan or zoom reaches the earlier ones,
    and an earlier request that settles afterwards is converted with
    the descriptor its snapshot had when the later capture was made. *)
Theorem later_capture_freezes_earlier_snapshots (G : Globals) (a : Annotation)
    (now : string) (pg pg1 : Page) (run : InFlight)
    (actions : list UserAction) (ref : nat) (info : ImageInfo) :
  imageInfos pg !! ref = Some info ->
  onCreateAnnotation G a now pg = (pg1, Some run) ->
  imageInfos (actAll actions pg1) !! ref = Some info /\
  descriptorOf (actAll actions pg1) ref = viewportBounds info /\
  window_currentImageInfo (actAll actions pg1) = Some (imageInfo run) /\
  imageInfo run <> ref.
Proof.
  intros Hinfo Hcreate.
  destruct (onCreateAnnotation_started G a now pg pg1 run Hcreate)
    as (captured & _ & Href & Hinfos & Hwin & _).
  assert (Hlt : ref < length (imageInfos pg)).
  { apply lookup_lt_Some with info. exact Hinfo. }
  assert (Hne : imageInfo run <> ref) by lia.
  assert (Hinfo1 : imageInfos pg1 !! ref = Some info).
  { rewrite Hinfos. rewrite lookup_app_l; [exact Hinfo | exact Hlt]. }
  destruct (actAll_snapshot actions pg1 ref info Hinfo1)
    as (info' & Hlast & _ & _ & _ & Hsame).
  assert (E : info' = info).
  { apply Hsame. rewrite Hwin. intros E. injection E as E. contradiction. }
  subst info'.
  split; [exact Hlast|]. split.
  - unfold descriptorOf. rewrite Hlast. reflexivity.
  - split; [|exact Hne].
    clear - Hwin. revert pg1 Hwin.
    induction actions as [|action actions IH]; intros pg1 Hwin; [exact Hwin|].
    apply IH. rewrite act_window. exact Hwin.
Qed.

Lemma later_capture_freezes_earlier_snapshots_witness :
  imageInfos
    (actAll [PanZoom (viewerAt 3000 4000)]
       (fst (onCreateAnnotation (SamApi.samApiGlobals platform) drawnBox
               "1700000000001" waitingPage))) !! 0
  = Some captured.
Proof.
  apply (later_capture_freezes_earlier_snapshots
           (SamApi.samApiGlobals platform) drawnBox "1700000000001"
           waitingPage
           (fst (onCreateAnnotation (SamApi.samApiGlobals platform) drawnBox
                   "1700000000001" waitingPage))
           {| annotation := drawnBox;
              originalAnnotationId := a_id drawnBox;
              tempAnnotation := makeTempAnnotation drawnBox "1700000000001";
              imageInfo := 1;
              samPayload :=
                match snd (onCreateAnnotation (SamApi.samApiGlobals platform)
                             drawnBox "1700000000001" waitingPage) with
                | Some r => samPayload r
                | None => samPayload theRun
                end |}
           [PanZoom (viewerAt 3000 4000)] 0 captured).
  - vm_compute. reflexivity.
  - vm_compute. reflexivity.
Defined.

End Snapshots.

(* ===================================================================== *)
(** * Names, updates, folders and visibility                              *)
(* ===================================================================== *)

Section Folders.

Import AnnotationManager AnnotationLists ViewerCore Scenario Stated.

Lemma hasText_trimmed (item : BodyItem) :
  hasText item = true ->
  truthyString (trim (default EmptyString (b_value item))) = true.
Proof.
  unfold hasText. destruct (b_value item) as [v|]; [|discriminate].
  intros H. apply andb_true_iff in H as [_ H]. exact H.
Qed.

Lemma firstComment_text (body : list BodyItem) (name : string) :
  firstComment body = Some name ->
  exists item, In item body /\ hasText item = true /\ isComment item = true /\
               name = trim (default EmptyString (b_value item)).
Proof.
  induction body as [|item rest IH]; cbn [firstComment]; [discriminate|].
  destruct (hasText item && isComment item) eqn:E.
  - intros [= <-]. apply andb_true_iff in E as [Ht Hc].
    exists item. repeat split; try assumption. left. reflexivity.
  - intros H. destruct (IH H) as (i & Hin & Hrest).
    exists i. split; [right; exact Hin | exact Hrest].
Qed.

Lemma firstText_text (body : list BodyItem) (name : string) :
  firstText body = Some name ->
  exists item, In item body /\ hasText item = true /\
               name = trim (default EmptyString (b_value item)).
Proof.
  induction body as [|item rest IH]; cbn [firstText]; [discriminate|].
  destruct (hasText item) eqn:E.
  - intros [= <-]. exists item. repeat split; try assumption. left. reflexivity.
  - intros H. destruct (IH H) as (i & Hin & Hrest).
    exists i. split; [right; exact Hin | exact Hrest].
Qed.

(** X19.  The name shown for an annotation is never empty: it is the
    trimmed, non-blank text of one of its body items, a comment if the
    body has one, or the text ["[Others]"]. *)
Theorem name_is_never_empty (annotation : Annotation) :
  truthyString (getAnnotationName annotation) = true /\
  (getAnnotationName annotation = "[Others]"%string \/
   exists body item,
     a_body annotation = Some body /\ In item body /\ hasText item = true /\
     getAnnotationName annotation = trim (default EmptyString (b_value item)) /\
     (isComment item = true \/
      forall other, In other body -> hasText other && isComment other = false)).
Proof.
  unfold getAnnotationName.
  destruct (a_body annotation) as [[|first rest]|];
    try (split; [reflexivity | left; reflexivity]).
  destruct (firstComment (first :: rest)) as [comment|] eqn:Hc.
  - destruct (firstComment_text _ _ Hc) as (item & Hin & Ht & Hcm & ->).
    split; [apply hasText_trimmed; exact Ht|].
    right. exists (first :: rest), item. repeat split; try assumption.
    left. exact Hcm.
  - destruct (firstText (first :: rest)) as [text|] eqn:Ht.
    + destruct (firstText_text _ _ Ht) as (item & Hin & Htext & ->).
      split; [apply hasText_trimmed; exact Htext|].
      right. exists (first :: rest), item. repeat split; try assumption.
      right. clear - Hc. induction (first :: rest) as [|i l IH].
      * intros other [].
      * cbn [firstComment] in Hc.
        destruct (hasText i && isComment i) eqn:E; [discriminate|].
        intros other [<-|Hin]; [exact E | exact (IH Hc other Hin)].
    + split; [reflexivity | left; reflexivity].
Qed.

Lemma tagging_is_no_comment (item : BodyItem) :
  purposeIs item "tagging" = true -> isComment item = false.
Proof.
  unfold isComment, purposeIs.
  destruct (b_purpose item) as [p|]; [|discriminate].
  intros H. apply String.eqb_eq in H. subst p.
  cbn. rewrite andb_false_r. reflexivity.
Qed.

(** X20.  An annotation whose only texts are tags is named after its
    first tag: the list entry shows the tag the annotation is filed
    under first. *)
Theorem tagged_annotation_is_named_after_first_tag (currentTool : string)
    (annotation : Annotation) (body : list BodyItem) :
  a_body annotation = Some body ->
  (forall item, In item body -> hasText item = true ->
                purposeIs item "tagging" = true) ->
  taggingValues body <> [] ->
  head (getAnnotationTags currentTool annotation)
    = Some (getAnnotationName annotation).
Proof.
  intros Hbody Honly Htags.
  assert (Hc : firstComment body = None).
  { clear - Honly. induction body as [|i l IH]; [reflexivity|].
    cbn [firstComment]. destruct (hasText i) eqn:Ht.
    - rewrite (tagging_is_no_comment i (Honly i (or_introl eq_refl) Ht)).
      cbn [andb]. apply IH. intros item Hin. apply Honly. right. exact Hin.
    - cbn [andb]. apply IH. intros item Hin. apply Honly. right. exact Hin. }
  assert (Hf : firstText body = head (taggingValues body)).
  { clear - Honly. induction body as [|i l IH]; [reflexivity|].
    cbn [firstText taggingValues]. destruct (hasText i) eqn:Ht.
    - rewrite (Honly i (or_introl eq_refl) Ht). reflexivity.
    - cbn [andb]. apply IH. intros item Hin. apply Honly. right. exact Hin. }
  unfold getAnnotationTags, getAnnotationName. rewrite Hbody.
  destruct body as [|first rest]; [contradiction Htags; reflexivity|].
  rewrite Hc, Hf.
  destruct (taggingValues (first :: rest)) as [|t ts]; [contradiction Htags; reflexivity|].
  reflexivity.
Qed.

Lemma tagged_annotation_is_named_after_first_tag_witness :
  head (getAnnotationTags "rect" Cases.taggedSamAnnotation)
    = Some (getAnnotationName Cases.taggedSamAnnotation).
Proof.
  apply (tagged_annotation_is_named_after_first_tag "rect"
           Cases.taggedSamAnnotation [Cases.tumorTag]).
  - reflexivity.
  - intros item [<-|[]] _. reflexivity.
  - vm_compute. discriminate.
Defined.

End Folders.

Section FolderUpdates.

Import AnnotationManager AnnotationLists ViewerCore Scenario Stated.








End FolderUpdates.

Section FolderDeletion.

Import AnnotationManager AnnotationLists ViewerCore Scenario Stated.

Lemma removeAllFromViewer_in (folder held : list Annotation) (b : Annotation) :
  In b (removeAllFromViewer folder held) <->
  In b held /\ forall a, In a folder -> a_id b <> a_id a.
Proof.
  unfold removeAllFromViewer. revert held.
  induction folder as [|x folder IH]; intros held; cbn [fold_left].
  - split; [intros H; split; [exact H | intros a []] | intros [H _]; exact H].
  - rewrite IH. unfold anno_removeAnnotation. rewrite keepOthers_in. split.
    + intros [[Hin Hx] Hrest]. split; [exact Hin|].
      intros a [<-|Ha]; [exact Hx | exact (Hrest a Ha)].
    + intros [Hin Hall]. split; [split; [exact Hin|]|].
      * apply Hall. left. reflexivity.
      * intros a Ha. apply Hall. right. exact Ha.
Qed.

(** X22.  Deleting a folder that is not empty, once confirmed, removes
    the tag from the storage and takes every annotation of the folder
    off the viewer, and leaves the folders of the other tags as they
    are: an annotation of the folder that carries a second tag stays
    listed under that tag although the viewer no longer holds it.
    Declining the dialog changes nothing. *)
Theorem folder_deletion (tag : string) (pg : Page) (folder : list Annotation) :
  annotations pg !! tag = Some folder ->
  folder <> [] ->
  let pg' := deleteFolderAndAnnotations tag true pg in
  annotations pg' !! tag = None /\
  (forall other, other <> tag ->
     annotations pg' !! other = annotations pg !! other) /\
  (forall b, In b (anno pg') <->
             In b (anno pg) /\ forall a, In a folder -> a_id b <> a_id a) /\
  (forall a other, In a folder -> other <> tag ->
     listedUnder other a (annotations pg) ->
     listedUnder other a (annotations pg') /\ ~ heldByAnno (a_id a) pg') /\
  deleteFolderAndAnnotations tag false pg = pg.
Proof.
  intros Hfolder Hne pg'.
  assert (Hpg' : pg' = setAnnotations (delete tag (annotations pg))
                         (setAnno (removeAllFromViewer folder (anno pg)) pg)).
  { unfold pg', deleteFolderAndAnnotations. rewrite Hfolder.
    destruct folder; [contradiction Hne; reflexivity | reflexivity]. }
  assert (Hother : forall other, other <> tag ->
            annotations pg' !! other = annotations pg !! other).
  { intros other Ho. rewrite Hpg'. cbn [setAnnotations annotations].
    apply lookup_delete_ne. congruence. }
  assert (Hheld : forall b, In b (anno pg') <->
             In b (anno pg) /\ forall a, In a folder -> a_id b <> a_id a).
  { intros b. rewrite Hpg'. cbn [setAnnotations setAnno anno].
    apply removeAllFromViewer_in. }
  split; [|split; [exact Hother|split; [exact Hheld|split]]].
  - rewrite Hpg'. cbn [setAnnotations annotations]. apply lookup_delete_eq.
  - intros a other Ha Ho (l & Hl & Hin). split.
    + exists l. split; [rewrite (Hother other Ho); exact Hl | exact Hin].
    + intros (b & Hb & Hid). apply Hheld in Hb as [_ Hall].
      exact (Hall a Ha Hid).
  - unfold deleteFolderAndAnnotations. rewrite Hfolder.
    destruct folder; reflexivity.
Qed.

Lemma folder_deletion_witness :
  annotations
    (deleteFolderAndAnnotations "Manual" true
       (ensureAddAnnotation drawnBox (setCurrentTool "rect" page))) !! "Manual"
  = None.
Proof.
  apply (folder_deletion "Manual"
           (ensureAddAnnotation drawnBox (setCurrentTool "rect" page))
           [drawnBox]).
  - vm_compute. reflexivity.
  - discriminate.
Defined.

(** X23.  Hiding an annotation takes its id off the viewer and showing
    it afterwards puts the annotation back; the annotations of other
    ids and the tag storage are the same as before.  Showing an
    annotation whose id the viewer holds changes nothing, so the viewer
    never holds it twice. *)
Theorem hide_then_show (annotation : Annotation) (pg : Page) :
  let hidden := toggleAnnotationVisibility annotation false pg in
  let shown := toggleAnnotationVisibility annotation (snd hidden) (fst hidden) in
  snd hidden = true /\ snd shown = false /\
  ~ heldByAnno (a_id annotation) (fst hidden) /\
  In annotation (anno (fst shown)) /\
  (forall b, a_id b <> a_id annotation ->
     (In b (anno (fst shown)) <-> In b (anno pg))) /\
  (forall b, In b (anno (fst shown)) -> a_id b = a_id annotation ->
     b = annotation) /\
  annotations (fst shown) = annotations pg /\
  toggleAnnotationVisibility annotation true (fst shown) = (fst shown, false).
Proof.
  intros hidden shown.
  assert (Hh : anno (fst hidden) = keepOthers (a_id annotation) (anno pg)).
  { reflexivity. }
  assert (Hno : existsb (fun a => String.eqb (a_id a) (a_id annotation))
                  (anno (fst hidden)) = false).
  { rewrite Hh. apply not_true_is_false. intros E.
    apply existsb_exists in E as (b & Hb & Hid).
    apply keepOthers_in in Hb as [_ Hb]. apply String.eqb_eq in Hid.
    contradiction. }
  assert (Hs : anno (fst shown)
               = (keepOthers (a_id annotation)
                    (keepOthers (a_id annotation) (anno pg)) ++ [annotation])%list).
  { unfold shown. change (snd hidden) with true.
    unfold toggleAnnotationVisibility at 1. rewrite Hno.
    cbn [fst setAnno anno]. rewrite Hh. reflexivity. }
  assert (Hin : forall b, In b (anno (fst shown)) <->
                  b = annotation \/ (In b (anno pg) /\ a_id b <> a_id annotation)).
  { intros b. rewrite Hs, keepOthers_twice, in_app_iff, keepOthers_in.
    cbn [In]. intuition. }
  split; [reflexivity|]. split; [reflexivity|]. split.
  { intros (b & Hb & Hid). rewrite Hh in Hb.
    apply keepOthers_in in Hb as [_ Hb]. contradiction. }
  split; [apply Hin; left; reflexivity|]. split.
  { intros b Hb. rewrite Hin. split.
    - intros [->|[H _]]; [contradiction Hb; reflexivity | exact H].
    - intros H. right. split; assumption. }
  split.
  { intros b Hb Hid. apply Hin in Hb as [Hb|[_ Hb]]; [exact Hb | contradiction]. }
  split.
  { unfold shown. change (snd hidden) with true.
    unfold toggleAnnotationVisibility at 1. rewrite Hno. reflexivity. }
  unfold toggleAnnotationVisibility.
  assert (Hyes : existsb (fun a => String.eqb (a_id a) (a_id annotation))
                   (anno (fst shown)) = true).
  { apply existsb_exists. exists annotation. split.
    - apply Hin. left. reflexivity.
    - apply String.eqb_refl. }
  rewrite Hyes. reflexivity.
Qed.

End FolderDeletion.

(* ===================================================================== *)
(** * Export                                                              *)
(* ===================================================================== *)

Section ExportFormat.

Import AnnotationManager AnnotationLists Scenario Stated.

Lemma includes_char_cons (c x : ascii) (s : string) :
  includes (String x s) (String c EmptyString)
  = Ascii.eqb c x || includes s (String c EmptyString).
Proof.
  cbn [includes String.prefix].
  destruct (ascii_dec c x) as [->|Hne].
  - rewrite Ascii.eqb_refl. destruct s; reflexivity.
  - apply Ascii.eqb_neq in Hne. rewrite Hne. reflexivity.
Qed.

Lemma includes_char_app (c : ascii) (a b : string) :
  includes (a ++ b) (String c EmptyString)
  = includes a (String c EmptyString) || includes b (String c EmptyString).
Proof.
  induction a as [|x a IH].
  - reflexivity.
  - change (String x a ++ b)%string with (String x (a ++ b)).
    rewrite !includes_char_cons, IH, orb_assoc. reflexivity.
Qed.

Lemma execAll_without_backslash (s : string) (skip : nat) :
  includes s (String backslash EmptyString) = false ->
  execAll s skip = [].
Proof.
  revert skip. induction s as [|c s IH]; intros skip Hno; [reflexivity|].
  rewrite includes_char_cons in Hno. apply orb_false_iff in Hno as [_ Hs].
  cbn [execAll]. destruct skip as [|k]; [|apply IH; exact Hs].
  assert (Hm : matchAt (String c s) = None).
  { unfold matchAt. destruct s as [|b s2]; [reflexivity|].
    rewrite includes_char_cons in Hs. apply orb_false_iff in Hs as [Hb _].
    rewrite Ascii.eqb_sym in Hb. rewrite Hb, andb_false_r. reflexivity. }
  rewrite Hm. apply IH. exact Hs.
Qed.

(** X24.  The export reads the points of a path with a pattern that
    asks for a backslash after each [M] and [L]: an annotation whose
    selector value holds no backslash is exported with its id and one
    closed polyline that has no points. *)
Theorem export_without_backslash_has_no_points (annotation : Annotation)
    (now : string) (target : Target) (selector : Selector) :
  a_target annotation = Some target ->
  t_selector target = Some selector ->
  includes (s_value selector) (String backslash EmptyString) = false ->
  exists data element,
    convertAnnotationToExportFormat annotation now = Some data /\
    x_id data = a_id annotation /\
    x_elements data = [element] /\
    e_type element = "polyline"%string /\ e_closed element = true /\
    e_points element = [].
Proof.
  intros Htarget Hselector Hno.
  unfold convertAnnotationToExportFormat. rewrite Htarget, Hselector.
  eexists. eexists. split; [reflexivity|].
  cbn [x_id x_elements e_type e_closed e_points].
  repeat split.
  rewrite (execAll_without_backslash _ 0 Hno).
  destruct (_ && _); reflexivity.
Qed.

Lemma export_without_backslash_has_no_points_witness :
  exists data element,
    convertAnnotationToExportFormat drawnBox "1700000000002" = Some data /\
    x_id data = a_id drawnBox /\
    x_elements data = [element] /\
    e_type element = "polyline"%string /\ e_closed element = true /\
    e_points element = [].
Proof.
  apply (export_without_backslash_has_no_points drawnBox "1700000000002"
           (default {| t_source := None; t_selector := None |} (a_target drawnBox))
           (default {| s_type := EmptyString; s_value := EmptyString |}
              (a_target drawnBox ≫= t_selector))).
  - vm_compute. reflexivity.
  - vm_compute. reflexivity.
  - vm_compute. reflexivity.
Defined.

Lemma uint_no_backslash (d : Decimal.uint) :
  includes (NilEmpty.string_of_uint d) (String backslash EmptyString) = false.
Proof.
  induction d; cbn [NilEmpty.string_of_uint]; [reflexivity|..];
    rewrite includes_char_cons, IHd; reflexivity.
Qed.

Lemma int_no_backslash (d : Decimal.int) :
  includes (NilZero.string_of_int d) (String backslash EmptyString) = false.
Proof.
  assert (Hu : forall u, includes (NilZero.string_of_uint u)
                           (String backslash EmptyString) = false).
  { intros u. unfold NilZero.string_of_uint.
    destruct u; try reflexivity; apply uint_no_backslash. }
  destruct d as [u|u]; cbn [NilZero.string_of_int]; [apply Hu|].
  rewrite includes_char_cons, Hu. reflexivity.
Qed.

Lemma showNumber_no_backslash (n : JsNum) :
  includes (numberToString platform n) (String backslash EmptyString) = false.
Proof.
  cbn [numberToString platform]. unfold showNumber.
  destruct n as [q|]; [|reflexivity].
  destruct (Pos.eqb (Qden (Qred q)) 1); [apply int_no_backslash|].
  rewrite !includes_char_app, !int_no_backslash. reflexivity.
Qed.

Section Paths.

Variable P : Platform.
Hypothesis numbers_have_no_backslash :
  forall n, includes (numberToString P n) (String backslash EmptyString) = false.

Lemma showCoord_no_backslash (coord : JsNum * JsNum) :
  includes (showCoord P coord) (String backslash EmptyString) = false.
Proof.
  unfold showCoord. rewrite !includes_char_app, !numbers_have_no_backslash.
  reflexivity.
Qed.

Lemma joined_no_backslash (separator : string) (rest : list (JsNum * JsNum))
    (start : string) :
  includes separator (String backslash EmptyString) = false ->
  includes start (String backslash EmptyString) = false ->
  includes
    (fold_left (fun pathData coord =>
                  (pathData ++ separator ++ showCoord P coord)%string) rest start)
    (String backslash EmptyString) = false.
Proof.
  intros Hsep. revert start.
  induction rest as [|coord rest IH]; intros start Hstart; [exact Hstart|].
  cbn [fold_left]. apply IH.
  rewrite !includes_char_app, Hstart, Hsep, showCoord_no_backslash. reflexivity.
Qed.

Lemma path_no_backslash (wsi : WsiCoordinates) :
  includes (AnnotationManager.createSVGPathFromWSICoordinates P wsi)
    (String backslash EmptyString) = false.
Proof.
  unfold AnnotationManager.createSVGPathFromWSICoordinates.
  destruct wsi as [[|p ps]|[|[|c0 rest] rings]]; try reflexivity.
  rewrite !includes_char_app.
  rewrite (joined_no_backslash " L " rest); [reflexivity | reflexivity |].
  rewrite !includes_char_app, showCoord_no_backslash. reflexivity.
Qed.

Lemma polygon_no_backslash (wsi : WsiCoordinates) :
  includes (SamApi.createSVGPathFromWSICoordinates P wsi)
    (String backslash EmptyString) = false.
Proof.
  unfold SamApi.createSVGPathFromWSICoordinates.
  destruct wsi as [[|p ps]|[|[|c0 rest] rings]]; try reflexivity.
  rewrite !includes_char_app.
  rewrite (joined_no_backslash " " rest); [reflexivity | reflexivity |].
  rewrite !includes_char_app, showCoord_no_backslash. reflexivity.
Qed.

(** X25.  The export cannot read back what the conversion writes: with
    either declaration of [createSVGPathFromWSICoordinates], and numbers
    printed without a backslash, the annotation that the conversion of a
    SAM result returns is exported with the description ["Annotation"],
    a black line (the colour for SAM is chosen by the description) and
    no points. *)
Theorem converted_annotation_exports_no_points (G : Globals)
    (viewer : option Viewer) (win : option ImageInfo) (samResult : SamResult)
    (original : Annotation) (info : ImageInfo) (stamp rnd now : string)
    (sam : Annotation) :
  (g_createSVGPathFromWSICoordinates G
     = AnnotationManager.createSVGPathFromWSICoordinates P \/
   g_createSVGPathFromWSICoordinates G
     = SamApi.createSVGPathFromWSICoordinates P) ->
  SamApi.convertSAMResultToAnnotation G viewer win samResult original info
    stamp rnd = Some sam ->
  exists data element,
    convertAnnotationToExportFormat sam now = Some data /\
    x_id data = a_id sam /\
    x_description data = "Annotation"%string /\
    x_elements data = [element] /\
    e_lineColor element = "rgb(0,0,0)"%string /\
    e_points element = [].
Proof.
  intros Hbinding. unfold SamApi.convertSAMResultToAnnotation.
  destruct (SamApi.featuresOf samResult) as [features|]; [|discriminate].
  destruct (SamApi.bestFeature features) as [best|]; [|discriminate].
  destruct (f_geometry best) as [geometry|]; [|discriminate].
  destruct (g_coordinates geometry) as [coordinates|]; [|discriminate].
  destruct (g_transformCanvasToWSICoordinates G _ _ _ _) as [[wsi|]|m];
    try discriminate.
  intros H. injection H as <-.
  assert (Hno : includes (g_createSVGPathFromWSICoordinates G wsi)
                  (String backslash EmptyString) = false).
  { destruct Hbinding as [-> | ->];
      [apply path_no_backslash | apply polygon_no_backslash]. }
  unfold convertAnnotationToExportFormat.
  cbn [a_target t_selector s_type s_value a_body b_value a_id].
  eexists. eexists. split; [reflexivity|].
  cbn [x_id x_description x_elements e_lineColor e_points].
  repeat split.
  rewrite (execAll_without_backslash _ 0 Hno).
  destruct (_ && _); reflexivity.
Qed.

End Paths.

Lemma converted_annotation_exports_no_points_witness :
  exists data element,
    convertAnnotationToExportFormat
      (default drawnBox
         (SamApi.convertSAMResultToAnnotation (SamApi.samApiGlobals platform)
            (Some theViewer) (Some snapshot) (SamArray [triangle50])
            drawnBox snapshot "1700000000001" "k3j9x0a1b"))
      "1700000000002" = Some data /\
    x_id data = "sam-1700000000001-k3j9x0a1b"%string /\
    x_description data = "Annotation"%string /\
    x_elements data = [element] /\
    e_lineColor element = "rgb(0,0,0)"%string /\
    e_points element = [].
Proof.
  apply (converted_annotation_exports_no_points platform showNumber_no_backslash
           (SamApi.samApiGlobals platform)
           (Some theViewer) (Some snapshot) (SamArray [triangle50])
           drawnBox snapshot "1700000000001" "k3j9x0a1b" "1700000000002").
  - right. reflexivity.
  - vm_compute. reflexivity.
Defined.

End ExportFormat.

(* ===================================================================== *)
(** * Drawing tools                                                       *)
(* ===================================================================== *)

Section DrawingTools.

Import Tools.
Local Open Scope string_scope.

Ltac split_tool tool :=
  repeat match goal with
         | |- context [String.eqb tool ?s] =>
             destruct (String.eqb_spec tool s) as [->|?]
         end.

(** X26.  After [setActiveTool(tool)] drawing is disabled exactly for
    the tools [drag] and [sam-drag], and the quadrilateral flag is set
    exactly for [quadrilateral].  [maintainSAMToolState], which runs
    after every selection, update and deletion and after each settled
    request, leaves that state as it is for every tool but [sam-drag]:
    there it turns drawing on again, with the drawing tool that was set
    before. *)
Theorem maintain_after_setActiveTool (tool : string) (d : Drawing) :
  let current := fst (setActiveTool tool d) in
  let d' := snd (setActiveTool tool d) in
  current = tool /\
  (drawingEnabled d' = false <-> tool = "drag" \/ tool = "sam-drag") /\
  (quadrilateralMode d' = true <-> tool = "quadrilateral") /\
  (tool <> "sam-drag" -> maintainSAMToolState current d' = d') /\
  (tool = "sam-drag" ->
   drawingEnabled (maintainSAMToolState current d') = true /\
   drawingTool (maintainSAMToolState current d') = drawingTool d).
Proof.
  destruct d as [en dt qm]. cbv zeta.
  split; [reflexivity|].
  unfold setActiveTool, maintainSAMToolState. cbn [fst snd].
  split; [|split; [|split]].
  - split_tool tool; cbn; split; intros H; try discriminate; try tauto;
      try (destruct H as [H|H]; discriminate); try (destruct H; congruence).
  - split_tool tool; cbn; split; intros H; try discriminate; try reflexivity;
      try congruence.
  - intros Hne. split_tool tool; try reflexivity; try contradiction.
    destruct (negb (startsWith tool "sam-")); reflexivity.
  - intros ->. cbn. split; reflexivity.
Qed.

End DrawingTools.

(* ===================================================================== *)
(** * The area of a candidate                                             *)
(* ===================================================================== *)

Section PolygonArea.

Import CoordinateTransforms SamApi.
Local Open Scope Q_scope.













End PolygonArea.
